(** * Travel bucket backend: the signup and login controllers

    A shallow embedding of the Express server of this repository
    (schema [userSchema], [connectDB], [signupController],
    [loginController]) and the properties of its credential lifecycle.

    The handlers are written in a small monad that threads what a request
    can change: the [User] collection, the response object [res] and the
    sequence of calls made into the libraries.  A JavaScript [throw] keeps
    the changes made before it, so the state is returned on every
    completion, thrown or not. *)

From Stdlib Require Import ZArith Ascii String DecimalString List Bool Lia.
From stdpp Require Import base option strings gmap list.
Import ListNotations.

Local Open Scope string_scope.
Local Open Scope list_scope.
Local Open Scope Z_scope.

(* ===================================================================== *)
(** ** JavaScript values of a parsed JSON body *)
(* ===================================================================== *)

(** A field of [req.body] as [express.json()] leaves it.  Numbers are
    modelled at the integers: the controllers only test them for being
    zero.  An array or an object is kept as its JSON text; the controllers
    never look inside one. *)
Inductive JsValue : Type :=
  | JUndefined
  | JNull
  | JBool (b : bool)
  | JNumber (n : Z)
  | JString (s : string)
  | JObject (json : string).

(** [!!v] in JavaScript: [undefined], [null], [false], [0] and the empty
    string are falsy, everything else (every object and array too) is
    truthy. *)
Definition truthy (v : JsValue) : bool :=
  match v with
  | JUndefined => false
  | JNull => false
  | JBool b => b
  | JNumber n => negb (Z.eqb n 0)
  | JString s => negb (String.eqb s "")
  | JObject _ => true
  end.

(** [const { k } = obj]: a missing key reads as [undefined]. *)
Definition field (obj : gmap string JsValue) (k : string) : JsValue :=
  default JUndefined (obj !! k).

(** [process.env]: variables are strings when set.  [!process.env.K] holds
    when [K] is unset or set to the empty string. *)
Definition env_truthy (env : gmap string string) (k : string) : bool :=
  match env !! k with
  | Some s => negb (String.eqb s "")
  | None => false
  end.

(* ===================================================================== *)
(** ** Data model *)
(* ===================================================================== *)

Definition ObjectId := string.

(** A stored document of the [User] model ([userSchema] with
    [timestamps: true]). *)
Record User : Type := mkUser {
  _id : ObjectId;
  username : string;
  email : string;
  password : string;
  createdAt : Z;
  updatedAt : Z;
  __v : Z
}.

(** [user.password], for the places where a local variable of the handler
    is called [password] too. *)
Definition User_password (u : User) : string := password u.

(** The collection, in insertion order. *)
Definition Store := list User.

(** Values of the raw document object [_doc]. *)
Inductive DocValue : Type :=
  | VObjectId (i : ObjectId)
  | VString (s : string)
  | VDate (ms : Z)
  | VNumber (n : Z).

(** [user._doc]: the plain object behind a document. *)
Definition _doc (u : User) : gmap string DocValue :=
  <["_id" := VObjectId (_id u)]>
  (<["username" := VString (username u)]>
  (<["email" := VString (email u)]>
  (<["password" := VString (password u)]>
  (<["createdAt" := VDate (createdAt u)]>
  (<["updatedAt" := VDate (updatedAt u)]>
  (<["__v" := VNumber (__v u)]> ∅)))))).

(** A signed token, kept symbolic: the payload, the two registered claims
    that [jwt.sign] adds, and the key it was signed with. *)
Record Jwt : Type := mkJwt {
  jwt_id : ObjectId;
  jwt_iat : Z;
  jwt_exp : Z;
  jwt_key : string
}.

Record Cookie : Type := mkCookie {
  ck_name : string;
  ck_value : Jwt;
  ck_httpOnly : bool;
  ck_secure : bool;
  ck_sameSite : string;
  ck_maxAge : Z
}.

(** The JSON body the controllers send. *)
Record Json : Type := mkJson {
  success : bool;
  message : string;
  user : option (gmap string DocValue)
}.

(** The response object [res]: Express starts it at status 200 with no
    cookie and nothing sent. *)
Record Response : Type := mkResponse {
  statusCode : Z;
  cookies : list Cookie;
  sent : option Json
}.

Definition fresh_res : Response :=
  {| statusCode := 200; cookies := []; sent := None |}.

(** Calls into the libraries, in the order they are made. *)
Inductive Call : Type :=
  | CallFindOne (filter : JsValue)
  | CallHashSync (s : JsValue) (rounds : nat)
  | CallCompareSync (s : JsValue) (hash : string)
  | CallSave (id : ObjectId)
  | CallJwtSign (id : ObjectId)
  | CallConsoleError (label : string).

(** What one request can change. *)
Record HandlerState : Type := mkState {
  db : Store;
  res : Response;
  trace : list Call
}.

(** What the outside decides for one request: the salt bcryptjs draws, the
    [_id] Mongoose generates, the clock, and whether the database rejects
    a query for a reason of its own (connection lost, time-out). *)
Record World : Type := mkWorld {
  salt : string;
  new_id : ObjectId;
  clock_save : Z;
  clock_sign : Z;
  findOne_rejects : bool;
  save_rejects : bool
}.

(* ===================================================================== *)
(** ** The handler monad *)
(* ===================================================================== *)

Definition Error := string.

(** How a piece of handler code completes: with a value, by [return]ing
    from the handler, or by throwing. *)
Inductive Completion (A : Type) : Type :=
  | Normal (a : A)
  | Returned
  | Thrown (e : Error).

Arguments Normal {A} a.
Arguments Returned {A}.
Arguments Thrown {A} e.

Definition Flow (A : Type) : Type := HandlerState -> HandlerState * Completion A.

Definition pure {A} (a : A) : Flow A := fun s => (s, Normal a).

Definition bind {A B} (m : Flow A) (k : A -> Flow B) : Flow B :=
  fun s =>
    match m s with
    | (s', Normal a) => k a s'
    | (s', Returned) => (s', Returned)
    | (s', Thrown e) => (s', Thrown e)
    end.

Definition throw {A} (e : Error) : Flow A := fun s => (s, Thrown e).

Definition return_ {A} : Flow A := fun s => (s, Returned).

(** What a library call answers: a value, or an error.  For a promise
    these are its resolution and its rejection. *)
Inductive Answer (A : Type) : Type :=
  | Resolved (a : A)
  | Rejected (e : Error).

Arguments Resolved {A} a.
Arguments Rejected {A} e.

(** [await answer]: a rejection is thrown at the [await]. *)
Definition await {A} (r : Answer A) : Flow A :=
  fun s =>
    match r with
    | Resolved a => (s, Normal a)
    | Rejected e => (s, Thrown e)
    end.

(** [try { body } catch (error) { handler }] *)
Definition try_catch (body : Flow unit) (handler : Error -> Flow unit) : Flow unit :=
  fun s =>
    match body s with
    | (s', Thrown e) => handler e s'
    | r => r
    end.

Declare Scope flow_scope.
Delimit Scope flow_scope with flow.
Notation "x <- m ;; k" := (bind m (fun x => k))
  (at level 100, m at next level, right associativity) : flow_scope.
Notation "m ;; k" := (bind m (fun _ => k))
  (at level 100, right associativity) : flow_scope.
Local Open Scope flow_scope.

Definition log (c : Call) : Flow unit :=
  fun s => ({| db := db s; res := res s; trace := trace s ++ [c] |}, Normal tt).

Definition get_db : Flow Store := fun s => (s, Normal (db s)).

Definition put_db (st : Store) : Flow unit :=
  fun s => ({| db := st; res := res s; trace := trace s |}, Normal tt).

Definition modify_res (f : Response -> Response) : Flow unit :=
  fun s => ({| db := db s; res := f (res s); trace := trace s |}, Normal tt).

(** [res.status(code)] *)
Definition res_status (code : Z) : Flow unit :=
  modify_res (fun r => {| statusCode := code; cookies := cookies r; sent := sent r |}).

(** [res.json(body)]: sends the response.  Once a response was sent the
    headers can no longer be set, and the call throws. *)
Definition res_json (b : Json) : Flow unit :=
  fun s =>
    match sent (res s) with
    | Some _ => (s, Thrown "ERR_HTTP_HEADERS_SENT")
    | None =>
        ({| db := db s;
            res := {| statusCode := statusCode (res s); cookies := cookies (res s);
                      sent := Some b |};
            trace := trace s |}, Normal tt)
    end.

(** [res.cookie(name, value, options)]: appends a [Set-Cookie] header, and
    throws as well once a response was sent. *)
Definition res_cookie (c : Cookie) : Flow unit :=
  fun s =>
    match sent (res s) with
    | Some _ => (s, Thrown "ERR_HTTP_HEADERS_SENT")
    | None =>
        ({| db := db s;
            res := {| statusCode := statusCode (res s);
                      cookies := cookies (res s) ++ [c]; sent := None |};
            trace := trace s |}, Normal tt)
    end.

Definition console_error (label : string) : Flow unit := log (CallConsoleError label).

(* ===================================================================== *)
(** ** jsonwebtoken *)
(* ===================================================================== *)

Definition digit_of (c : ascii) : option Z :=
  let n := Z.of_N (N_of_ascii c) in
  if (48 <=? n) && (n <=? 57) then Some (n - 48) else None.

Definition unit_ms (c : ascii) : option Z :=
  if Ascii.eqb c "s" then Some 1000
  else if Ascii.eqb c "m" then Some (60 * 1000)
  else if Ascii.eqb c "h" then Some (60 * 60 * 1000)
  else if Ascii.eqb c "d" then Some (24 * 60 * 60 * 1000)
  else if Ascii.eqb c "w" then Some (7 * 24 * 60 * 60 * 1000)
  else None.

Fixpoint ms_from (acc : Z) (s : string) : option Z :=
  match s with
  | EmptyString => None
  | String c EmptyString => option_map (Z.mul acc) (unit_ms c)
  | String c rest =>
      match digit_of c with
      | Some d => ms_from (10 * acc + d) rest
      | None => None
      end
  end.

(** The time spans of the [ms] package that this server can meet: decimal
    digits followed by a one-letter unit, in milliseconds. *)
Definition ms (s : string) : option Z :=
  match s with
  | String c _ => match digit_of c with Some _ => ms_from 0 s | None => None end
  | EmptyString => None
  end.

(** [jwt.sign({ id }, secret, { expiresIn })] at clock [now] (milliseconds):
    [iat] is the clock in seconds, [exp] is [iat] plus the span in
    seconds.  Signing throws without a key, with an empty key, and on a
    span it cannot read. *)
Definition jwt_sign (now : Z) (id : ObjectId) (secret : option string)
    (expiresIn : string) : Flow Jwt :=
  log (CallJwtSign id) ;;
  match secret with
  | None => throw "secretOrPrivateKey must have a value"
  | Some key =>
      if String.eqb key "" then throw "secretOrPrivateKey must have a value"
      else
        match ms expiresIn with
        | None => throw "expiresIn should be a number of seconds or string representing a timespan"
        | Some span =>
            let iat := now / 1000 in
            pure {| jwt_id := id; jwt_iat := iat; jwt_exp := iat + span / 1000; jwt_key := key |}
        end
  end.

(* ===================================================================== *)
(** ** Startup: [connectDB().then(startServer)] *)
(* ===================================================================== *)

Inductive Process : Type :=
  | Exited (code : Z)
  | Listening
  | Idle.

(** [connectDB]: [process.exit(1)] when [MONGO_URI] is missing or when
    [mongoose.connect] rejects ([connect_ok] is the driver's answer). *)
Definition connectDB (env : gmap string string) (connect_ok : bool) : option Z :=
  if negb (env_truthy env "MONGO_URI") then Some 1
  else if connect_ok then None
  else Some 1.

(** What [app.listen(PORT)] does: the server is bound; or it emits an
    [error] event with a [code]; or the call itself throws (a port that is
    no port, such as 70000). *)
Inductive Listen : Type :=
  | Bound
  | Emits (code : string)
  | Throws.

(** [startServer]: a port in use ends the process, another emitted error
    is only logged.  When [app.listen] throws nothing catches it: the
    promise of the last line is rejected with no handler, which ends the
    process with code 1. *)
Definition startServer (listen : Listen) : Process :=
  match listen with
  | Bound => Listening
  | Emits code => if String.eqb code "EADDRINUSE" then Exited 1 else Idle
  | Throws => Exited 1
  end.

(** The module's last line, [connectDB().then(startServer)]. *)
Definition startup (env : gmap string string) (connect_ok : bool)
    (listen : Listen) : Process :=
  match connectDB env connect_ok with
  | Some code => Exited code
  | None => startServer listen
  end.

(* ===================================================================== *)
(** ** The controllers *)
(* ===================================================================== *)

(** The library functions the controllers rest on, whose code is not
    part of this repository.

    bcryptjs on string arguments: [bcrypt_hash] is the digest of a
    plaintext at a cost and a salt, [bcrypt_check] the check of a plaintext
    against a digest.

    Mongoose on a value that is not a string, at a [String] path:
    [castNonString] is the cast of a document field ([None] is a
    [CastError]), [matchNonString] the cast of a query condition (a cast
    value or an operator document). *)
Record Libraries : Type := mkLibraries {
  bcrypt_hash : string -> nat -> string -> string;
  bcrypt_check : string -> string -> bool;
  castNonString : JsValue -> option string;
  matchNonString : JsValue -> option (string -> bool)
}.

Section Controllers.

Variable lib : Libraries.

(** The cast of a document field at a [String] path: a string is kept. *)
Definition castString (v : JsValue) : option string :=
  match v with
  | JString s => Some s
  | _ => castNonString lib v
  end.

(** The condition [{ email: v }] as a test on a stored email: a string
    matches the emails equal to it. *)
Definition castFilter (v : JsValue) : option (string -> bool) :=
  match v with
  | JString s => Some (String.eqb s)
  | _ => matchNonString lib v
  end.

(** [bcryptjs.hashSync(s, rounds)]: throws unless [s] is a string. *)
Definition bcryptjs_hashSync (w : World) (s : JsValue) (rounds : nat) : Flow string :=
  log (CallHashSync s rounds) ;;
  match s with
  | JString p => pure (bcrypt_hash lib p rounds (salt w))
  | _ => throw "Illegal arguments"
  end.

(** [bcryptjs.compareSync(s, hash)]: throws unless [s] is a string. *)
Definition bcryptjs_compareSync (s : JsValue) (hash : string) : Flow bool :=
  log (CallCompareSync s hash) ;;
  match s with
  | JString p => pure (bcrypt_check lib p hash)
  | _ => throw "Illegal arguments"
  end.

(** What [User.findOne({ email })] answers on the collection [st]: the
    first document the condition matches, [null] when there is none; it
    rejects when the database does or when the condition cannot be
    cast. *)
Definition query (w : World) (st : Store) (filter : JsValue) : Answer (option User) :=
  if findOne_rejects w then Rejected "MongoServerSelectionError"
  else
    match castFilter filter with
    | None => Rejected "CastError"
    | Some matches => Resolved (List.find (fun u => matches (email u)) st)
    end.

(** [await User.findOne({ email })] *)
Definition User_findOne (w : World) (filter : JsValue) : Flow (option User) :=
  log (CallFindOne filter) ;;
  st <- get_db ;;
  await (query w st filter).

(** [new User({ username, email, password })]: the fields are cast to the
    schema's types and an [_id] is generated. *)
Record Draft : Type := mkDraft {
  draft_id : ObjectId;
  draft_username : option string;
  draft_email : option string;
  draft_password : option string
}.

Definition new_User (w : World) (username email : JsValue) (password : string) : Draft :=
  {| draft_id := new_id w;
     draft_username := castString username;
     draft_email := castString email;
     draft_password := Some password |}.

(** [required: true] on a [String] path: a cast value that is not empty. *)
Definition required (o : option string) : option string :=
  match o with
  | Some s => if String.eqb s "" then None else Some s
  | None => None
  end.

(** The unique indexes: [_id], and [unique: true] on [username] and on
    [email]. *)
Definition index_free (st : Store) (u : User) : bool :=
  forallb (fun v =>
    negb (String.eqb (_id v) (_id u))
    && negb (String.eqb (username v) (username u))
    && negb (String.eqb (email v) (email u))) st.

(** The insert behind [newUser.save()] on the collection [st]:
    validation, then one write that the unique indexes may refuse.
    Nothing is written when it rejects. *)
Definition insertOne (w : World) (st : Store) (d : Draft) : Store * Answer User :=
  match required (draft_username d), required (draft_email d),
        required (draft_password d) with
  | Some un, Some em, Some pw =>
      if save_rejects w then (st, Rejected "MongoNetworkError")
      else
        let u := {| _id := draft_id d; username := un; email := em;
                    password := pw; createdAt := clock_save w;
                    updatedAt := clock_save w; __v := 0 |} in
        if index_free st u then (st ++ [u], Resolved u)
        else (st, Rejected "E11000 duplicate key error")
  | _, _, _ => (st, Rejected "ValidationError")
  end.

(** [await newUser.save()]; the handler goes on with the saved document. *)
Definition save (w : World) (d : Draft) : Flow User :=
  log (CallSave (draft_id d)) ;;
  st <- get_db ;;
  put_db (fst (insertOne w st d)) ;;
  await (snd (insertOne w st d)).

(** The cookie both controllers set. *)
Definition access_cookie (env : gmap string string) (token : Jwt) : Cookie :=
  {| ck_name := "X_TTMS_access_token";
     ck_value := token;
     ck_httpOnly := true;
     ck_secure := bool_decide (env !! "NODE_ENV" = Some "production");
     ck_sameSite := "lax";
     ck_maxAge := 4 * 24 * 60 * 60 * 1000 |}.

(** [const { ... } = req.body]: [req.body] is the object that
    [express.json()] parsed, or [undefined] ([None]) when the request had
    no body for it to parse; destructuring [undefined] throws. *)
Definition destructure (req_body : option (gmap string JsValue))
    : Flow (gmap string JsValue) :=
  match req_body with
  | Some body => pure body
  | None => throw "Cannot destructure property of 'req.body' as it is undefined."
  end.

(** [signupController(req, res)], with [req_body] the value of [req.body]
    and [env] the [process.env] of the moment. *)
Definition signupController (env : gmap string string) (w : World)
    (req_body : option (gmap string JsValue)) : Flow unit :=
  try_catch
    (body <- destructure req_body ;;
     let username := field body "username" in
     let email := field body "email" in
     let password := field body "password" in
     if negb (truthy username) || negb (truthy email) || negb (truthy password) then
       res_status 400 ;;
       res_json {| success := false;
                   message := "Username, email, and password are required!";
                   user := None |} ;;
       return_
     else
       userExists <- User_findOne w email ;;
       match userExists with
       | Some _ =>
           res_status 409 ;;
           res_json {| success := false;
                       message := "User already exists, please login";
                       user := None |} ;;
           return_
       | None =>
           hashedPassword <- bcryptjs_hashSync w password 10 ;;
           newUser <- save w (new_User w username email hashedPassword) ;;
           if negb (env_truthy env "JWT_SECRET") then
             throw "JWT_SECRET is not defined in environment variables."
           else
             token <- jwt_sign (clock_sign w) (_id newUser) (env !! "JWT_SECRET") "4d" ;;
             let rest := delete "password" (_doc newUser) in
             res_cookie (access_cookie env token) ;;
             res_status 201 ;;
             res_json {| success := true;
                         message := "User Created and Logged In Successfully";
                         user := Some rest |}
       end)
    (fun error =>
       console_error "Signup Error:" ;;
       res_status 500 ;;
       res_json {| success := false;
                   message := "Server error during signup!";
                   user := None |} ;;
       return_).

(** [loginController(req, res)] *)
Definition loginController (env : gmap string string) (w : World)
    (req_body : option (gmap string JsValue)) : Flow unit :=
  try_catch
    (body <- destructure req_body ;;
     let email := field body "email" in
     let password := field body "password" in
     if negb (truthy email) || negb (truthy password) then
       res_status 400 ;;
       res_json {| success := false;
                   message := "Email and password are required!";
                   user := None |} ;;
       return_
     else
       found <- User_findOne w email ;;
       match found with
       | None =>
           res_status 404 ;;
           res_json {| success := false; message := "User not found!"; user := None |} ;;
           return_
       | Some validUser =>
           validPassword <- bcryptjs_compareSync password (User_password validUser) ;;
           if negb validPassword then
             res_status 401 ;;
             res_json {| success := false; message := "Invalid credentials"; user := None |} ;;
             return_
           else if negb (env_truthy env "JWT_SECRET") then
             throw "JWT_SECRET is not defined in environment variables."
           else
             token <- jwt_sign (clock_sign w) (_id validUser) (env !! "JWT_SECRET") "4d" ;;
             let rest := delete "password" (_doc validUser) in
             res_cookie (access_cookie env token) ;;
             res_status 200 ;;
             res_json {| success := true; message := "Login Success"; user := Some rest |}
       end)
    (fun error =>
       console_error "Login Error:" ;;
       res_status 500 ;;
       res_json {| success := false;
                   message := "Internal server error during login.";
                   user := None |} ;;
       return_).

(** One request against the collection [st]: Express hands the handler a
    fresh [res]. *)
Definition run (h : Flow unit) (st : Store) : HandlerState * Completion unit :=
  h {| db := st; res := fresh_res; trace := [] |}.

Definition handle (h : Flow unit) (st : Store) : HandlerState :=
  fst (run h st).

(** [POST /api/auth/signup] and [POST /api/auth/login]. *)
Definition signup env w req_body st := handle (signupController env w req_body) st.
Definition login env w req_body st := handle (loginController env w req_body) st.

End Controllers.

(* ===================================================================== *)
(** ** Vocabulary of the properties *)
(* ===================================================================== *)

(** The three fields of a registration pass the presence test. *)
Definition all_present (body : gmap string JsValue) : Prop :=
  truthy (field body "username") = true
  /\ truthy (field body "email") = true
  /\ truthy (field body "password") = true.

(** Some field of a registration fails the presence test. *)
Definition some_absent (body : gmap string JsValue) : Prop :=
  truthy (field body "username") = false
  \/ truthy (field body "email") = false
  \/ truthy (field body "password") = false.

(** A response that reports a failure: no cookie, [success: false]. *)
Definition failure (code : Z) (msg : string) : Response :=
  {| statusCode := code; cookies := [];
     sent := Some {| success := false; message := msg; user := None |} |}.

(** What bcryptjs promises of its two functions: a digest checks against
    its plaintext, is not the plaintext, and is not empty. *)
Definition hasher_contract (lib : Libraries) : Prop :=
  (forall p r s, bcrypt_check lib p (bcrypt_hash lib p r s) = true)
  /\ (forall p r s, bcrypt_hash lib p r s <> p)
  /\ (forall p r s, bcrypt_hash lib p r s <> "").

(** The attributes of the session cookie and the life of its token. *)
Definition session_cookie (env : gmap string string) (c : Cookie) : Prop :=
  ck_name c = "X_TTMS_access_token"
  /\ ck_httpOnly c = true
  /\ (ck_secure c = true <-> env !! "NODE_ENV" = Some "production")
  /\ ck_sameSite c = "lax"
  /\ ck_maxAge c = 4 * 24 * 60 * 60 * 1000
  /\ jwt_exp (ck_value c) = jwt_iat (ck_value c) + 4 * 24 * 60 * 60.

(** The token [jwt.sign] returns for [id] under [key] at the clock of [w]. *)
Definition token_for (w : World) (id : ObjectId) (key : string) : Jwt :=
  {| jwt_id := id;
     jwt_iat := clock_sign w / 1000;
     jwt_exp := clock_sign w / 1000 + 4 * 24 * 60 * 60;
     jwt_key := key |}.

(** The document a registration writes. *)
Definition created (w : World) (un em digest : string) : User :=
  {| _id := new_id w; username := un; email := em; password := digest;
     createdAt := clock_save w; updatedAt := clock_save w; __v := 0 |}.

(** Concrete libraries and requests on which the controllers run: a
    stand-in hasher that prefixes the plaintext (and ignores the salt),
    and a Mongoose that refuses every value that is not a string. *)
Module Sample.

Definition hash (p : string) (rounds : nat) (salt : string) : string :=
  String.append "$2a$" p.

Definition check (p digest : string) : bool :=
  String.eqb digest (String.append "$2a$" p).

Definition lib : Libraries :=
  {| bcrypt_hash := hash; bcrypt_check := check;
     castNonString := fun _ => None; matchNonString := fun _ => None |}.

Definition world : World :=
  {| salt := "c2FsdA"; new_id := "65f0a1"; clock_save := 1700000000123;
     clock_sign := 1700000000456; findOne_rejects := false;
     save_rejects := false |}.

Definition env_dev : gmap string string :=
  <["MONGO_URI" := "mongodb://localhost/travel"]> (<["JWT_SECRET" := "s3cret"]> ∅).

Definition env_prod : gmap string string :=
  <["NODE_ENV" := "production"]> env_dev.

Definition env_no_secret : gmap string string :=
  <["MONGO_URI" := "mongodb://localhost/travel"]> ∅.

Definition ann : gmap string JsValue :=
  <["username" := JString "ann"]>
  (<["email" := JString "ann@example.org"]>
  (<["password" := JString "hunter2"]> ∅)).

Definition ann_record : User :=
  {| _id := "65e000"; username := "ann"; email := "ann@example.org";
     password := "$2a$hunter2"; createdAt := 1690000000000;
     updatedAt := 1690000000000; __v := 0 |}.

(** Another person who picked the user name [ann]. *)
Definition ann2 : gmap string JsValue :=
  <["username" := JString "ann"]>
  (<["email" := JString "ann@other.org"]>
  (<["password" := JString "tr0ub4dor"]> ∅)).

Definition numeric_password : gmap string JsValue :=
  <["username" := JString "bob"]>
  (<["email" := JString "bob@example.org"]>
  (<["password" := JNumber 1234]> ∅)).

Definition empty_password : gmap string JsValue :=
  <["username" := JString "bob"]>
  (<["email" := JString "ann@example.org"]>
  (<["password" := JString ""]> ∅)).

Definition wrong_password : gmap string JsValue :=
  <["email" := JString "ann@example.org"]> (<["password" := JString "hunter3"]> ∅).

Definition unknown_email : gmap string JsValue :=
  <["email" := JString "eve@example.org"]> (<["password" := JString "hunter2"]> ∅).

Definition world_db_down : World :=
  {| salt := "c2FsdA"; new_id := "65f0a1"; clock_save := 1700000000123;
     clock_sign := 1700000000456; findOne_rejects := true;
     save_rejects := false |}.

End Sample.

(* ===================================================================== *)
(** ** The paths of a request, as a relation *)
(* ===================================================================== *)

(** The state in which a controller leaves a request without a parsed
    body: the destructuring throws, the [catch] logs and answers 500. *)
Definition signup_unparsed (st : Store) : HandlerState :=
  {| db := st; res := failure 500 "Server error during signup!";
     trace := [CallConsoleError "Signup Error:"] |}.

Definition login_unparsed (st : Store) : HandlerState :=
  {| db := st; res := failure 500 "Internal server error during login.";
     trace := [CallConsoleError "Login Error:"] |}.

(** The states in which [signupController] can leave a request with the
    parsed body [body] that began on the collection [st], each with the
    condition that leads to it. *)
Inductive signup_path (lib : Libraries) (env : gmap string string) (w : World)
    (body : gmap string JsValue) (st : Store) : HandlerState -> Prop :=
  | sp_missing :
      some_absent body ->
      signup_path lib env w body st
        {| db := st;
           res := failure 400 "Username, email, and password are required!";
           trace := [] |}
  | sp_lookup_rejected e :
      all_present body ->
      query lib w st (field body "email") = Rejected e ->
      signup_path lib env w body st
        {| db := st;
           res := failure 500 "Server error during signup!";
           trace := [CallFindOne (field body "email");
                     CallConsoleError "Signup Error:"] |}
  | sp_duplicate u :
      all_present body ->
      query lib w st (field body "email") = Resolved (Some u) ->
      signup_path lib env w body st
        {| db := st;
           res := failure 409 "User already exists, please login";
           trace := [CallFindOne (field body "email")] |}
  | sp_hash_thrown :
      all_present body ->
      query lib w st (field body "email") = Resolved None ->
      (forall p, field body "password" <> JString p) ->
      signup_path lib env w body st
        {| db := st;
           res := failure 500 "Server error during signup!";
           trace := [CallFindOne (field body "email");
                     CallHashSync (field body "password") 10;
                     CallConsoleError "Signup Error:"] |}
  | sp_insert_rejected p e :
      all_present body ->
      query lib w st (field body "email") = Resolved None ->
      field body "password" = JString p ->
      insertOne w st (new_User lib w (field body "username") (field body "email")
                        (bcrypt_hash lib p 10 (salt w))) = (st, Rejected e) ->
      signup_path lib env w body st
        {| db := st;
           res := failure 500 "Server error during signup!";
           trace := [CallFindOne (field body "email");
                     CallHashSync (field body "password") 10;
                     CallSave (new_id w); CallConsoleError "Signup Error:"] |}
  | sp_no_secret p u :
      all_present body ->
      query lib w st (field body "email") = Resolved None ->
      field body "password" = JString p ->
      insertOne w st (new_User lib w (field body "username") (field body "email")
                        (bcrypt_hash lib p 10 (salt w))) = (st ++ [u], Resolved u) ->
      env_truthy env "JWT_SECRET" = false ->
      signup_path lib env w body st
        {| db := st ++ [u];
           res := failure 500 "Server error during signup!";
           trace := [CallFindOne (field body "email");
                     CallHashSync (field body "password") 10;
                     CallSave (new_id w); CallConsoleError "Signup Error:"] |}
  | sp_created p u key :
      all_present body ->
      query lib w st (field body "email") = Resolved None ->
      field body "password" = JString p ->
      insertOne w st (new_User lib w (field body "username") (field body "email")
                        (bcrypt_hash lib p 10 (salt w))) = (st ++ [u], Resolved u) ->
      env !! "JWT_SECRET" = Some key -> key <> "" ->
      signup_path lib env w body st
        {| db := st ++ [u];
           res := {| statusCode := 201;
                     cookies := [access_cookie env (token_for w (_id u) key)];
                     sent := Some {| success := true;
                                     message := "User Created and Logged In Successfully";
                                     user := Some (delete "password" (_doc u)) |} |};
           trace := [CallFindOne (field body "email");
                     CallHashSync (field body "password") 10;
                     CallSave (new_id w); CallJwtSign (_id u)] |}.

(** The same for [loginController]. *)
Inductive login_path (lib : Libraries) (env : gmap string string) (w : World)
    (body : gmap string JsValue) (st : Store) : HandlerState -> Prop :=
  | lp_missing :
      truthy (field body "email") = false \/ truthy (field body "password") = false ->
      login_path lib env w body st
        {| db := st; res := failure 400 "Email and password are required!";
           trace := [] |}
  | lp_lookup_rejected e :
      truthy (field body "email") = true -> truthy (field body "password") = true ->
      query lib w st (field body "email") = Rejected e ->
      login_path lib env w body st
        {| db := st;
           res := failure 500 "Internal server error during login.";
           trace := [CallFindOne (field body "email");
                     CallConsoleError "Login Error:"] |}
  | lp_not_found :
      truthy (field body "email") = true -> truthy (field body "password") = true ->
      query lib w st (field body "email") = Resolved None ->
      login_path lib env w body st
        {| db := st; res := failure 404 "User not found!";
           trace := [CallFindOne (field body "email")] |}
  | lp_compare_thrown u :
      truthy (field body "email") = true -> truthy (field body "password") = true ->
      query lib w st (field body "email") = Resolved (Some u) ->
      (forall p, field body "password" <> JString p) ->
      login_path lib env w body st
        {| db := st;
           res := failure 500 "Internal server error during login.";
           trace := [CallFindOne (field body "email");
                     CallCompareSync (field body "password") (password u);
                     CallConsoleError "Login Error:"] |}
  | lp_bad_password u p :
      truthy (field body "email") = true -> truthy (field body "password") = true ->
      query lib w st (field body "email") = Resolved (Some u) ->
      field body "password" = JString p ->
      bcrypt_check lib p (password u) = false ->
      login_path lib env w body st
        {| db := st; res := failure 401 "Invalid credentials";
           trace := [CallFindOne (field body "email");
                     CallCompareSync (field body "password") (password u)] |}
  | lp_no_secret u p :
      truthy (field body "email") = true -> truthy (field body "password") = true ->
      query lib w st (field body "email") = Resolved (Some u) ->
      field body "password" = JString p ->
      bcrypt_check lib p (password u) = true ->
      env_truthy env "JWT_SECRET" = false ->
      login_path lib env w body st
        {| db := st;
           res := failure 500 "Internal server error during login.";
           trace := [CallFindOne (field body "email");
                     CallCompareSync (field body "password") (password u);
                     CallConsoleError "Login Error:"] |}
  | lp_ok u p key :
      truthy (field body "email") = true -> truthy (field body "password") = true ->
      query lib w st (field body "email") = Resolved (Some u) ->
      field body "password" = JString p ->
      bcrypt_check lib p (password u) = true ->
      env !! "JWT_SECRET" = Some key -> key <> "" ->
      login_path lib env w body st
        {| db := st;
           res := {| statusCode := 200;
                     cookies := [access_cookie env (token_for w (_id u) key)];
                     sent := Some {| success := true; message := "Login Success";
                                     user := Some (delete "password" (_doc u)) |} |};
           trace := [CallFindOne (field body "email");
                     CallCompareSync (field body "password") (password u);
                     CallJwtSign (_id u)] |}.

(** What [userSchema] asks of the collection: the [_id]s, the user names
    and the emails are pairwise different ([unique: true]), and no
    document has an empty user name, email or password
    ([required: true]). *)
Definition schema_holds (st : Store) : Prop :=
  List.NoDup (map _id st) /\ List.NoDup (map username st)
  /\ List.NoDup (map email st)
  /\ (forall v, In v st -> username v <> "" /\ email v <> "" /\ password v <> "").

(* ===================================================================== *)
(** ** Configuration read at module load *)
(* ===================================================================== *)

(** [const PORT = process.env.PORT || 8080]: the variable, a string, when
    it is set and not empty, the number 8080 otherwise. *)
Definition PORT (env : gmap string string) : JsValue :=
  match env !! "PORT" with
  | Some s => if String.eqb s "" then JNumber 8080 else JString s
  | None => JNumber 8080
  end.

(** The options handed to [cors]:
    [origin: process.env.CLIENT_URL || 'http://localhost:5173'],
    [credentials: true]. *)
Record CorsOptions : Type := mkCors {
  origin : string;
  credentials : bool
}.

Definition cors_options (env : gmap string string) : CorsOptions :=
  {| origin := match env !! "CLIENT_URL" with
               | Some s => if String.eqb s "" then "http://localhost:5173" else s
               | None => "http://localhost:5173"
               end;
     credentials := true |}.

(* ===================================================================== *)
(** ** The global error handler middleware *)
(* ===================================================================== *)

(** The error handed to the middleware, as far as it is read: its
    [statusCode] (a number, or missing) and its [message]. *)
Record JsError : Type := mkError {
  err_statusCode : option Z;
  err_message : option string
}.

(** The body the middleware sends. *)
Record ErrorJson : Type := mkErrorJson {
  ej_success : bool;
  ej_statusCode : Z;
  ej_message : string
}.

(** The line it writes with [console.error]: the interpolated values of
    [`[${statusCode}] ${req.method} ${req.originalUrl}: ${message}`]. *)
Record ErrorLine : Type := mkErrorLine {
  line_status : Z;
  line_method : string;
  line_url : string;
  line_message : string
}.

(** How the middleware ends: it hands the error on with [next(err)], it
    answers, or [res.status(...).json(...)] throws because the status is
    not one HTTP can carry (outside 100..999). *)
Inductive ErrorOutcome : Type :=
  | PassedOn (err : JsError)
  | Replied (status : Z) (body : ErrorJson)
  | StatusRefused (status : Z).

(** [app.use((err, req, res, next) => ...)], with [headersSent] the value
    of [res.headersSent]. *)
Definition errorHandler (err : JsError) (method originalUrl : string)
    (headersSent : bool) : ErrorLine * ErrorOutcome :=
  let statusCode :=
    match err_statusCode err with
    | Some n => if Z.eqb n 0 then 500 else n
    | None => 500
    end in
  let message :=
    match err_message err with
    | Some m => if String.eqb m "" then "Internal Server Error" else m
    | None => "Internal Server Error"
    end in
  let line := {| line_status := statusCode; line_method := method;
                 line_url := originalUrl; line_message := message |} in
  if headersSent then (line, PassedOn err)
  else if (100 <=? statusCode) && (statusCode <=? 999) then
    (line, Replied statusCode
             {| ej_success := false; ej_statusCode := statusCode;
                ej_message := message |})
  else (line, StatusRefused statusCode).

(* ===================================================================== *)
(** ** The mock sign-up of [controllers/auth.controller.js] *)
(* ===================================================================== *)

(** What one call of the mock leaves: the value it printed with
    [console.log], the response object, and the error it handed to
    [next]. *)
Record MockRun : Type := mkMockRun {
  printed : option JsValue;
  answer : Response;
  forwarded : option Error
}.

(** [signup(req, res, next)]: [body] is [req.body], [None] when no body
    parser has set it; reading [username] of [undefined] throws, and the
    [catch] hands the error to [next]. *)
Definition mock_signup (body : option (gmap string JsValue)) (res0 : Response) : MockRun :=
  match body with
  | None =>
      {| printed := None; answer := res0;
         forwarded := Some "Cannot read properties of undefined (reading 'username')" |}
  | Some b =>
      {| printed := Some (field b "username");
         answer := {| statusCode := 201; cookies := cookies res0;
                      sent := Some {| success := true;
                                      message := "User created successfully! Proceeding to Dashboard.";
                                      user := None |} |};
         forwarded := None |}
  end.

(** More requests, errors and moments to run the code on. *)
Module Scenario.

Definition bob : gmap string JsValue :=
  <["username" := JString "bob"]>
  (<["email" := JString "bob@example.org"]>
  (<["password" := JString "correct horse"]> ∅)).

Definition bob_record : User :=
  created Sample.world "bob" "bob@example.org" "$2a$correct horse".

(** Bob again, with keys no schema path answers to. *)
Definition bob_admin : gmap string JsValue :=
  <["role" := JString "admin"]> (<["_id" := JString "000000"]> bob).

(** A later request: another [_id] is drawn, the clock has moved on. *)
Definition later : World :=
  {| salt := "b3RoZXI"; new_id := "65f0a2"; clock_save := 1700000100000;
     clock_sign := 1700000100500; findOne_rejects := false;
     save_rejects := false |}.

(** [String(n)] for an integer. *)
Definition decimal (n : Z) : string := NilZero.string_of_int (Z.to_int n).

(** A Mongoose that casts numbers and booleans to strings, in documents
    and in conditions, and refuses the rest. *)
Definition cast_scalar (v : JsValue) : option string :=
  match v with
  | JNumber n => Some (decimal n)
  | JBool b => Some (if b then "true" else "false")
  | _ => None
  end.

Definition casting : Libraries :=
  {| bcrypt_hash := Sample.hash; bcrypt_check := Sample.check;
     castNonString := cast_scalar;
     matchNonString := fun v => option_map String.eqb (cast_scalar v) |}.

(** A user name that is a number. *)
Definition seven : gmap string JsValue :=
  <["username" := JNumber 7]>
  (<["email" := JString "seven@example.org"]>
  (<["password" := JString "se7en"]> ∅)).

(** A user name that is an object. *)
Definition object_username : gmap string JsValue :=
  <["username" := JObject "{}"]>
  (<["email" := JString "carol@example.org"]>
  (<["password" := JString "pa55word"]> ∅)).

(** A password that is a number, under Ann's email. *)
Definition ann_numeric_password : gmap string JsValue :=
  <["email" := JString "ann@example.org"]> (<["password" := JNumber 1234]> ∅).

(** The error [express.json()] raises on a body that is not JSON. *)
Definition parse_error : JsError :=
  {| err_statusCode := Some 400;
     err_message := Some "Unexpected end of JSON input" |}.

(** A thrown value with nothing to read. *)
Definition bare_error : JsError :=
  {| err_statusCode := None; err_message := None |}.

Definition odd_status : JsError :=
  {| err_statusCode := Some 42; err_message := Some "odd" |}.

End Scenario.

(* ===================================================================== *)
(** ** The libraries' answers *)
(* ===================================================================== *)

Lemma ms_4d : ms "4d" = Some (4 * 24 * 60 * 60 * 1000).
Proof. reflexivity. Qed.

Lemma sample_hasher_contract : hasher_contract Sample.lib.
Proof.
  repeat split; simpl; unfold Sample.check, Sample.hash; intros.
  - apply String.eqb_refl.
  - intros E. apply (f_equal String.length) in E.
    cbv [String.append] in E. simpl in E. lia.
  - discriminate.
Qed.

Section Answers.

Variable lib : Libraries.

(** A lookup by a string, when the database answers, is the first
    document with that email. *)
Lemma query_string w st e :
  findOne_rejects w = false ->
  query lib w st (JString e) = Resolved (List.find (fun u => String.eqb e (email u)) st).
Proof. intros H. unfold query. rewrite H. reflexivity. Qed.

Lemma find_email_none st e :
  (forall v, In v st -> email v <> e) ->
  List.find (fun u => String.eqb e (email u)) st = None.
Proof.
  induction st as [|v st IH]; intros H; simpl; [reflexivity|].
  destruct (String.eqb e (email v)) eqn:E.
  - apply String.eqb_eq in E. exfalso. apply (H v); [left; reflexivity | congruence].
  - apply IH. intros v' Hv'. apply H. right. exact Hv'.
Qed.

Lemma find_email_found st e v :
  In v st -> email v = e ->
  exists u, List.find (fun u => String.eqb e (email u)) st = Some u.
Proof.
  intros Hv He.
  destruct (List.find (fun u => String.eqb e (email u)) st) as [u|] eqn:F; [eauto|].
  pose proof (List.find_none _ _ F v Hv) as N. cbv beta in N.
  subst e. rewrite String.eqb_refl in N. discriminate.
Qed.

Lemma index_free_fresh st u :
  (forall v, In v st ->
     _id v <> _id u /\ username v <> username u /\ email v <> email u) ->
  index_free st u = true.
Proof.
  intros H. unfold index_free. apply forallb_forall. intros v Hv.
  destruct (H v Hv) as (Hi & Hn & He).
  apply String.eqb_neq in Hi, Hn, He. rewrite Hi, Hn, He. reflexivity.
Qed.

Lemma index_free_taken_username st u v :
  In v st -> username v = username u -> index_free st u = false.
Proof.
  intros Hv E. unfold index_free.
  destruct (forallb _ st) eqn:F; [|reflexivity].
  rewrite forallb_forall in F. specialize (F v Hv).
  rewrite E, String.eqb_refl in F. simpl in F.
  rewrite andb_false_r in F. discriminate.
Qed.

Lemma required_nonempty s : s <> "" -> required (Some s) = Some s.
Proof. intros H. unfold required. apply String.eqb_neq in H. rewrite H. reflexivity. Qed.

(** An insert either writes nothing and rejects, or appends the one
    document it returns. *)
Lemma insertOne_cases w st d :
  (exists e, insertOne w st d = (st, Rejected e))
  \/ (exists u, insertOne w st d = (st ++ [u], Resolved u) /\ _id u = draft_id d).
Proof.
  unfold insertOne.
  destruct (required (draft_username d)); [|left; eauto].
  destruct (required (draft_email d)); [|left; eauto].
  destruct (required (draft_password d)); [|left; eauto].
  destruct (save_rejects w); [left; eauto|].
  match goal with |- context [index_free st ?u] => destruct (index_free st u) end.
  - right. eexists. split; reflexivity.
  - left. eauto.
Qed.

Lemma insertOne_thrown w st d st' e :
  insertOne w st d = (st', Rejected e) -> st' = st.
Proof.
  destruct (insertOne_cases w st d) as [[e' E] | [u [E _]]]; rewrite E; congruence.
Qed.

Lemma insertOne_normal w st d st' u :
  insertOne w st d = (st', Resolved u) -> st' = st ++ [u] /\ _id u = draft_id d.
Proof.
  destruct (insertOne_cases w st d) as [[e' E] | [u' [E Hid]]]; rewrite E; intros H.
  - discriminate.
  - injection H as <- <-. split; [reflexivity | exact Hid].
Qed.

(** The unique index on [username] refuses a second document. *)
Lemma insertOne_taken_username w st name mail digest un v :
  castString lib name = Some un ->
  In v st -> username v = un ->
  exists e, insertOne w st (new_User lib w name mail digest) = (st, Rejected e).
Proof.
  intros Hc Hv Hun. unfold insertOne, new_User.
  cbn [draft_username draft_email draft_password draft_id]. rewrite Hc.
  destruct (required (Some un)) as [un'|] eqn:R; [|eauto].
  assert (un' = un) as ->.
  { unfold required in R. destruct (String.eqb un ""); congruence. }
  destruct (required (castString lib mail)); [|eauto].
  destruct (required (Some digest)); [|eauto].
  destruct (save_rejects w); [eauto|].
  rewrite (index_free_taken_username st _ v Hv); [eauto|].
  simpl. exact Hun.
Qed.

End Answers.

(* ===================================================================== *)
(** ** The paths through the two controllers *)
(* ===================================================================== *)

Ltac run_flow :=
  unfold User_findOne, bcryptjs_hashSync, bcryptjs_compareSync, save, jwt_sign,
    console_error, res_status, res_json, res_cookie, modify_res, log, get_db,
    put_db, await, pure, throw, return_, bind;
  cbn [db res trace statusCode cookies sent fst snd app].

Lemma bind_pure {A B} (a : A) (k : A -> Flow B) : bind (pure a) k = k a.
Proof. reflexivity. Qed.

Ltac enter_signup :=
  unfold signup, handle, run, signupController, try_catch, destructure;
  rewrite ?bind_pure; cbn beta; cbn [db res trace fst snd].

Ltac enter_login :=
  unfold login, handle, run, loginController, try_catch, destructure;
  rewrite ?bind_pure; cbn beta; cbn [db res trace fst snd].

Lemma present_test a b c :
  a = true -> b = true -> c = true -> negb a || negb b || negb c = false.
Proof. intros -> -> ->. reflexivity. Qed.

Lemma absent_test a b c :
  a = false \/ b = false \/ c = false -> negb a || negb b || negb c = true.
Proof.
  intros H. destruct a, b, c; try reflexivity.
  destruct H as [H | [H | H]]; discriminate.
Qed.

Lemma secret_truthy (env : gmap string string) key :
  env !! "JWT_SECRET" = Some key -> key <> "" -> env_truthy env "JWT_SECRET" = true.
Proof.
  intros H Hk. unfold env_truthy. rewrite H.
  apply String.eqb_neq in Hk. rewrite Hk. reflexivity.
Qed.

Section Paths.

Variable lib : Libraries.
Variable env : gmap string string.
Variable w : World.
Variable body : gmap string JsValue.
Variable st : Store.

Let f_username := field body "username".
Let f_email := field body "email".
Let f_password := field body "password".

(** *** Registration *)

Lemma signup_missing :
  some_absent body ->
  signup lib env w (Some body) st =
  {| db := st;
     res := failure 400 "Username, email, and password are required!";
     trace := [] |}.
Proof.
  intros H. enter_signup. rewrite (absent_test _ _ _ H). reflexivity.
Qed.

Lemma signup_lookup_thrown e :
  all_present body ->
  query lib w st f_email = Rejected e ->
  signup lib env w (Some body) st =
  {| db := st;
     res := failure 500 "Server error during signup!";
     trace := [CallFindOne f_email; CallConsoleError "Signup Error:"] |}.
Proof.
  intros (Hu & He & Hp) Hq. enter_signup.
  rewrite (present_test _ _ _ Hu He Hp). run_flow.
  fold f_email. rewrite Hq. reflexivity.
Qed.

Lemma signup_duplicate u :
  all_present body ->
  query lib w st f_email = Resolved (Some u) ->
  signup lib env w (Some body) st =
  {| db := st;
     res := failure 409 "User already exists, please login";
     trace := [CallFindOne f_email] |}.
Proof.
  intros (Hu & He & Hp) Hq. enter_signup.
  rewrite (present_test _ _ _ Hu He Hp). run_flow.
  fold f_email. rewrite Hq. reflexivity.
Qed.

Lemma signup_hash_thrown :
  all_present body ->
  query lib w st f_email = Resolved None ->
  (forall p, f_password <> JString p) ->
  signup lib env w (Some body) st =
  {| db := st;
     res := failure 500 "Server error during signup!";
     trace := [CallFindOne f_email; CallHashSync f_password 10;
               CallConsoleError "Signup Error:"] |}.
Proof.
  intros (Hu & He & Hp) Hq Hns. enter_signup.
  rewrite (present_test _ _ _ Hu He Hp). run_flow.
  fold f_email f_password. rewrite Hq.
  destruct f_password eqn:E; try reflexivity.
  exfalso. exact (Hns s eq_refl).
Qed.

Lemma signup_insert_thrown p st' e :
  all_present body ->
  query lib w st f_email = Resolved None ->
  f_password = JString p ->
  insertOne w st (new_User lib w f_username f_email (bcrypt_hash lib p 10 (salt w)))
    = (st', Rejected e) ->
  signup lib env w (Some body) st =
  {| db := st;
     res := failure 500 "Server error during signup!";
     trace := [CallFindOne f_email; CallHashSync f_password 10;
               CallSave (new_id w); CallConsoleError "Signup Error:"] |}.
Proof.
  intros (Hu & He & Hp) Hq Hpw Hi. enter_signup.
  rewrite (present_test _ _ _ Hu He Hp). run_flow.
  fold f_username f_email f_password. rewrite Hq, Hpw.
  cbn [db res trace]. rewrite Hi.
  rewrite (insertOne_thrown _ _ _ _ _ Hi). reflexivity.
Qed.

Lemma signup_no_secret p st' u :
  all_present body ->
  query lib w st f_email = Resolved None ->
  f_password = JString p ->
  insertOne w st (new_User lib w f_username f_email (bcrypt_hash lib p 10 (salt w)))
    = (st', Resolved u) ->
  env_truthy env "JWT_SECRET" = false ->
  signup lib env w (Some body) st =
  {| db := st';
     res := failure 500 "Server error during signup!";
     trace := [CallFindOne f_email; CallHashSync f_password 10;
               CallSave (new_id w); CallConsoleError "Signup Error:"] |}.
Proof.
  intros (Hu & He & Hp) Hq Hpw Hi Hs. enter_signup.
  rewrite (present_test _ _ _ Hu He Hp). run_flow.
  fold f_username f_email f_password. rewrite Hq, Hpw.
  cbn [db res trace]. rewrite Hi. cbn [fst snd]. rewrite Hs. reflexivity.
Qed.

Lemma signup_created p st' u key :
  all_present body ->
  query lib w st f_email = Resolved None ->
  f_password = JString p ->
  insertOne w st (new_User lib w f_username f_email (bcrypt_hash lib p 10 (salt w)))
    = (st', Resolved u) ->
  env !! "JWT_SECRET" = Some key -> key <> "" ->
  signup lib env w (Some body) st =
  {| db := st';
     res := {| statusCode := 201;
               cookies := [access_cookie env (token_for w (_id u) key)];
               sent := Some {| success := true;
                               message := "User Created and Logged In Successfully";
                               user := Some (delete "password" (_doc u)) |} |};
     trace := [CallFindOne f_email; CallHashSync f_password 10;
               CallSave (new_id w); CallJwtSign (_id u)] |}.
Proof.
  intros (Hu & He & Hp) Hq Hpw Hi Hk Hne. enter_signup.
  rewrite (present_test _ _ _ Hu He Hp). run_flow.
  fold f_username f_email f_password. rewrite Hq, Hpw.
  cbn [db res trace]. rewrite Hi. cbn [fst snd].
  rewrite (secret_truthy env key Hk Hne), Hk, ms_4d.
  apply String.eqb_neq in Hne. rewrite Hne. reflexivity.
Qed.

End Paths.

Lemma present_test2 a b : a = true -> b = true -> negb a || negb b = false.
Proof. intros -> ->. reflexivity. Qed.

Lemma absent_test2 a b : a = false \/ b = false -> negb a || negb b = true.
Proof. intros H. destruct a, b; try reflexivity. destruct H; discriminate. Qed.

Section LoginPaths.

Variable lib : Libraries.
Variable env : gmap string string.
Variable w : World.
Variable body : gmap string JsValue.
Variable st : Store.

Let f_email := field body "email".
Let f_password := field body "password".

Lemma login_missing :
  truthy f_email = false \/ truthy f_password = false ->
  login lib env w (Some body) st =
  {| db := st; res := failure 400 "Email and password are required!"; trace := [] |}.
Proof.
  intros H. unfold f_email, f_password in *. enter_login. rewrite (absent_test2 _ _ H). reflexivity.
Qed.

Lemma login_lookup_thrown e :
  truthy f_email = true -> truthy f_password = true ->
  query lib w st f_email = Rejected e ->
  login lib env w (Some body) st =
  {| db := st;
     res := failure 500 "Internal server error during login.";
     trace := [CallFindOne f_email; CallConsoleError "Login Error:"] |}.
Proof.
  intros He Hp Hq. unfold f_email, f_password in *. enter_login. rewrite (present_test2 _ _ He Hp). run_flow.
  rewrite Hq. reflexivity.
Qed.

Lemma login_not_found :
  truthy f_email = true -> truthy f_password = true ->
  query lib w st f_email = Resolved None ->
  login lib env w (Some body) st =
  {| db := st; res := failure 404 "User not found!"; trace := [CallFindOne f_email] |}.
Proof.
  intros He Hp Hq. unfold f_email, f_password in *. enter_login. rewrite (present_test2 _ _ He Hp). run_flow.
  rewrite Hq. reflexivity.
Qed.

Lemma login_compare_thrown u :
  truthy f_email = true -> truthy f_password = true ->
  query lib w st f_email = Resolved (Some u) ->
  (forall p, f_password <> JString p) ->
  login lib env w (Some body) st =
  {| db := st;
     res := failure 500 "Internal server error during login.";
     trace := [CallFindOne f_email; CallCompareSync f_password (password u);
               CallConsoleError "Login Error:"] |}.
Proof.
  intros He Hp Hq Hns. unfold f_email, f_password in *. enter_login. rewrite (present_test2 _ _ He Hp). run_flow.
  rewrite Hq. unfold User_password.
  destruct (field body "password") eqn:E; try reflexivity.
  exfalso. exact (Hns s eq_refl).
Qed.

Lemma login_bad_password u p :
  truthy f_email = true -> truthy f_password = true ->
  query lib w st f_email = Resolved (Some u) ->
  f_password = JString p ->
  bcrypt_check lib p (password u) = false ->
  login lib env w (Some body) st =
  {| db := st;
     res := failure 401 "Invalid credentials";
     trace := [CallFindOne f_email; CallCompareSync f_password (password u)] |}.
Proof.
  intros He Hp Hq Hpw Hc. unfold f_email, f_password in *. enter_login. rewrite (present_test2 _ _ He Hp). run_flow.
  rewrite Hq, Hpw. unfold User_password. rewrite Hc.
  reflexivity.
Qed.

Lemma login_no_secret u p :
  truthy f_email = true -> truthy f_password = true ->
  query lib w st f_email = Resolved (Some u) ->
  f_password = JString p ->
  bcrypt_check lib p (password u) = true ->
  env_truthy env "JWT_SECRET" = false ->
  login lib env w (Some body) st =
  {| db := st;
     res := failure 500 "Internal server error during login.";
     trace := [CallFindOne f_email; CallCompareSync f_password (password u);
               CallConsoleError "Login Error:"] |}.
Proof.
  intros He Hp Hq Hpw Hc Hs. unfold f_email, f_password in *. enter_login. rewrite (present_test2 _ _ He Hp). run_flow.
  rewrite Hq, Hpw. unfold User_password. rewrite Hc.
  cbn [negb]. rewrite Hs. reflexivity.
Qed.

Lemma login_ok u p key :
  truthy f_email = true -> truthy f_password = true ->
  query lib w st f_email = Resolved (Some u) ->
  f_password = JString p ->
  bcrypt_check lib p (password u) = true ->
  env !! "JWT_SECRET" = Some key -> key <> "" ->
  login lib env w (Some body) st =
  {| db := st;
     res := {| statusCode := 200;
               cookies := [access_cookie env (token_for w (_id u) key)];
               sent := Some {| success := true; message := "Login Success";
                               user := Some (delete "password" (_doc u)) |} |};
     trace := [CallFindOne f_email; CallCompareSync f_password (password u);
               CallJwtSign (_id u)] |}.
Proof.
  intros He Hp Hq Hpw Hc Hk Hne. unfold f_email, f_password in *. enter_login. rewrite (present_test2 _ _ He Hp).
  run_flow. rewrite Hq, Hpw. unfold User_password.
  rewrite Hc. cbn [negb].
  rewrite (secret_truthy env key Hk Hne), Hk, ms_4d.
  apply String.eqb_neq in Hne. rewrite Hne. reflexivity.
Qed.

End LoginPaths.

(* ===================================================================== *)
(** ** Every request ends on one of these paths *)
(* ===================================================================== *)

Lemma env_truthy_cases (env : gmap string string) k :
  env_truthy env k = false
  \/ (exists key, env !! k = Some key /\ key <> "").
Proof.
  unfold env_truthy. destruct (env !! k) as [key|]; [|left; reflexivity].
  destruct (String.eqb key "") eqn:E; [left; reflexivity|].
  right. exists key. split; [reflexivity|]. apply String.eqb_neq. exact E.
Qed.

Lemma string_or_not (v : JsValue) :
  (exists p, v = JString p) \/ (forall p, v <> JString p).
Proof. destruct v; try (right; intros; discriminate). left. eauto. Qed.

Lemma access_cookie_session env w id key :
  session_cookie env (access_cookie env (token_for w id key)).
Proof.
  unfold session_cookie, access_cookie, token_for. cbn.
  repeat split; try reflexivity.
  - intros H. apply bool_decide_eq_true in H. exact H.
  - intros H. apply bool_decide_eq_true. exact H.
Qed.

Lemma query_resolved_in lib w st filter u :
  query lib w st filter = Resolved (Some u) -> In u st.
Proof.
  unfold query. destruct (findOne_rejects w); [discriminate|].
  destruct (castFilter lib filter) as [m|]; [|discriminate].
  intros H. injection H as H. apply List.find_some in H. tauto.
Qed.

(** [const { password: pass, ...rest } = doc]: [rest] has every key of the
    document but [password]. *)
Lemma rest_has_no_password (u : User) :
  delete "password" (_doc u) !! "password" = None
  /\ (forall k, k <> "password" -> delete "password" (_doc u) !! k = _doc u !! k).
Proof.
  split.
  - apply lookup_delete_eq.
  - intros k Hk. apply lookup_delete_ne. congruence.
Qed.

Section Outcomes.

Variable lib : Libraries.
Variable env : gmap string string.
Variable w : World.
Variable body : gmap string JsValue.
Variable st : Store.

Lemma presence_cases : some_absent body \/ all_present body.
Proof.
  unfold some_absent, all_present.
  destruct (truthy (field body "username")), (truthy (field body "email")),
    (truthy (field body "password")); tauto.
Qed.

Lemma signup_outcomes :
  let r := signup lib env w (Some body) st in
  (db r = st /\ cookies (res r) = []
     /\ (statusCode (res r) = 400 \/ statusCode (res r) = 409 \/ statusCode (res r) = 500))
  \/ (exists u, db r = st ++ [u] /\ cookies (res r) = [] /\ statusCode (res r) = 500)
  \/ (exists u key, db r = st ++ [u] /\ statusCode (res r) = 201
        /\ cookies (res r) = [access_cookie env (token_for w (_id u) key)]).
Proof.
  cbv zeta.
  destruct presence_cases as [Ha | Hp].
  { rewrite (signup_missing lib env w body st Ha). left. cbn. tauto. }
  destruct (query lib w st (field body "email")) as [[u|]|e] eqn:Q.
  { rewrite (signup_duplicate lib env w body st u Hp Q). left. cbn. tauto. }
  2:{ rewrite (signup_lookup_thrown lib env w body st e Hp Q). left. cbn. tauto. }
  destruct (string_or_not (field body "password")) as [[p P] | P].
  2:{ rewrite (signup_hash_thrown lib env w body st Hp Q P). left. cbn. tauto. }
  destruct (insertOne_cases w st
    (new_User lib w (field body "username") (field body "email")
       (bcrypt_hash lib p 10 (salt w)))) as [[e I] | [u [I _]]].
  { rewrite (signup_insert_thrown lib env w body st p _ e Hp Q P I). left. cbn. tauto. }
  destruct (env_truthy_cases env "JWT_SECRET") as [S | [key [S Hk]]].
  - rewrite (signup_no_secret lib env w body st p _ u Hp Q P I S).
    right. left. exists u. cbn. tauto.
  - rewrite (signup_created lib env w body st p _ u key Hp Q P I S Hk).
    right. right. exists u, key. cbn. tauto.
Qed.

Lemma login_outcomes :
  let r := login lib env w (Some body) st in
  db r = st
  /\ ((cookies (res r) = []
         /\ (statusCode (res r) = 400 \/ statusCode (res r) = 404
             \/ statusCode (res r) = 401 \/ statusCode (res r) = 500))
      \/ (exists u key, statusCode (res r) = 200
            /\ cookies (res r) = [access_cookie env (token_for w (_id u) key)])).
Proof.
  cbv zeta.
  destruct (truthy (field body "email")) eqn:He.
  2:{ rewrite (login_missing lib env w body st (or_introl He)). cbn. tauto. }
  destruct (truthy (field body "password")) eqn:Hp.
  2:{ rewrite (login_missing lib env w body st (or_intror Hp)). cbn. tauto. }
  destruct (query lib w st (field body "email")) as [[u|]|e] eqn:Q.
  2:{ rewrite (login_not_found lib env w body st He Hp Q). cbn. tauto. }
  2:{ rewrite (login_lookup_thrown lib env w body st e He Hp Q). cbn. tauto. }
  destruct (string_or_not (field body "password")) as [[p P] | P].
  2:{ rewrite (login_compare_thrown lib env w body st u He Hp Q P). cbn. tauto. }
  destruct (bcrypt_check lib p (password u)) eqn:C.
  2:{ rewrite (login_bad_password lib env w body st u p He Hp Q P C). cbn. tauto. }
  destruct (env_truthy_cases env "JWT_SECRET") as [S | [key [S Hk]]].
  - rewrite (login_no_secret lib env w body st u p He Hp Q P C S). cbn. tauto.
  - rewrite (login_ok lib env w body st u p key He Hp Q P C S Hk). cbn.
    split; [reflexivity|]. right. exists u, key. tauto.
Qed.

End Outcomes.

(* ===================================================================== *)
(** ** Every request follows one path *)
(* ===================================================================== *)

Lemma signup_follows_path lib env w body st :
  signup_path lib env w body st (signup lib env w (Some body) st).
Proof.
  destruct (presence_cases body) as [Ha | Hp].
  { rewrite (signup_missing lib env w body st Ha). by constructor. }
  destruct (query lib w st (field body "email")) as [[u|]|e] eqn:Q.
  { rewrite (signup_duplicate lib env w body st u Hp Q). by econstructor. }
  2:{ rewrite (signup_lookup_thrown lib env w body st e Hp Q). by econstructor. }
  destruct (string_or_not (field body "password")) as [[p P] | P].
  2:{ rewrite (signup_hash_thrown lib env w body st Hp Q P). by constructor. }
  destruct (insertOne_cases w st
    (new_User lib w (field body "username") (field body "email")
       (bcrypt_hash lib p 10 (salt w)))) as [[e I] | [u [I _]]].
  { rewrite (signup_insert_thrown lib env w body st p _ e Hp Q P I).
    eapply sp_insert_rejected; eauto. }
  destruct (env_truthy_cases env "JWT_SECRET") as [S | [key [S Hk]]].
  - rewrite (signup_no_secret lib env w body st p _ u Hp Q P I S).
    eapply sp_no_secret; eauto.
  - rewrite (signup_created lib env w body st p _ u key Hp Q P I S Hk).
    eapply sp_created; eauto.
Qed.

Lemma login_follows_path lib env w body st :
  login_path lib env w body st (login lib env w (Some body) st).
Proof.
  destruct (truthy (field body "email")) eqn:He.
  2:{ rewrite (login_missing lib env w body st (or_introl He)). constructor. by left. }
  destruct (truthy (field body "password")) eqn:Hp.
  2:{ rewrite (login_missing lib env w body st (or_intror Hp)). constructor. by right. }
  destruct (query lib w st (field body "email")) as [[u|]|e] eqn:Q.
  2:{ rewrite (login_not_found lib env w body st He Hp Q). by constructor. }
  2:{ rewrite (login_lookup_thrown lib env w body st e He Hp Q). by econstructor. }
  destruct (string_or_not (field body "password")) as [[p P] | P].
  2:{ rewrite (login_compare_thrown lib env w body st u He Hp Q P). by constructor. }
  destruct (bcrypt_check lib p (password u)) eqn:C.
  2:{ rewrite (login_bad_password lib env w body st u p He Hp Q P C).
      eapply lp_bad_password; eauto. }
  destruct (env_truthy_cases env "JWT_SECRET") as [S | [key [S Hk]]].
  - rewrite (login_no_secret lib env w body st u p He Hp Q P C S).
    eapply lp_no_secret; eauto.
  - rewrite (login_ok lib env w body st u p key He Hp Q P C S Hk).
    eapply lp_ok; eauto.
Qed.

(** *** A request without a parsed body *)

Lemma signup_no_body lib env w st :
  signup lib env w None st = signup_unparsed st.
Proof. reflexivity. Qed.

Lemma login_no_body lib env w st :
  login lib env w None st = login_unparsed st.
Proof. reflexivity. Qed.

(** Case analysis on the path of a request: the state reached is replaced
    by each of the states of the relation. *)
Ltac on_signup_path lib env w body st :=
  generalize (signup_follows_path lib env w body st);
  generalize (signup lib env w (Some body) st);
  let r := fresh "r" in let H := fresh "Hpath" in
  intros r H; destruct H.

Ltac on_login_path lib env w body st :=
  generalize (login_follows_path lib env w body st);
  generalize (login lib env w (Some body) st);
  let r := fresh "r" in let H := fresh "Hpath" in
  intros r H; destruct H.

(** The same for any request: it has a parsed body and follows one of the
    paths, or it has none and ends in the one state of that case. *)
Ltac on_signup_request lib env w req st :=
  let body := fresh "body" in
  destruct req as [body|];
  [ on_signup_path lib env w body st
  | rewrite ?signup_no_body; unfold signup_unparsed ].

Ltac on_login_request lib env w req st :=
  let body := fresh "body" in
  destruct req as [body|];
  [ on_login_path lib env w body st
  | rewrite ?login_no_body; unfold login_unparsed ].

(** *** The insert, read backwards *)

Lemma required_some o s : required o = Some s -> o = Some s /\ s <> "".
Proof.
  unfold required. destruct o as [t|]; [|discriminate].
  destruct (String.eqb t "") eqn:E; [discriminate|].
  intros H. injection H as <-. split; [reflexivity|]. by apply String.eqb_neq.
Qed.

Lemma index_free_true st u :
  index_free st u = true ->
  forall v, In v st ->
    _id v <> _id u /\ username v <> username u /\ email v <> email u.
Proof.
  unfold index_free. rewrite forallb_forall. intros H v Hv.
  specialize (H v Hv). apply andb_prop in H as [H He]. apply andb_prop in H as [Hi Hn].
  apply negb_true_iff in Hi, Hn, He.
  apply String.eqb_neq in Hi, Hn, He. auto.
Qed.

Lemma insertOne_resolved lib w st name mail digest st' u :
  insertOne w st (new_User lib w name mail digest) = (st', Resolved u) ->
  castString lib name = Some (username u) /\ castString lib mail = Some (email u)
  /\ u = created w (username u) (email u) digest
  /\ username u <> "" /\ email u <> "" /\ digest <> ""
  /\ save_rejects w = false
  /\ (forall v, In v st ->
        _id v <> new_id w /\ username v <> username u /\ email v <> email u).
Proof.
  unfold insertOne, new_User.
  cbn [draft_username draft_email draft_password draft_id].
  destruct (required (castString lib name)) as [un|] eqn:Rn; [|discriminate].
  destruct (required (castString lib mail)) as [em|] eqn:Re; [|discriminate].
  destruct (required (Some digest)) as [pw|] eqn:Rp; [|discriminate].
  destruct (save_rejects w); [discriminate|].
  match goal with |- context [index_free st ?x] => destruct (index_free st x) eqn:F end;
    [|discriminate].
  intros H. injection H as _ <-. cbn.
  apply required_some in Rn as [Rn Hn], Re as [Re He], Rp as [Rp Hp].
  injection Rp as <-.
  repeat split; try assumption; try reflexivity;
    apply (index_free_true _ _ F v H).
Qed.

Lemma app_one_not_self {A} (l : list A) x : l ++ [x] <> l.
Proof.
  intros E. apply (f_equal (@length A)) in E.
  rewrite length_app in E. simpl in E. lia.
Qed.

Lemma find_app_new st e (u : User) :
  List.find (fun v => String.eqb e (email v)) st = None -> email u = e ->
  List.find (fun v => String.eqb e (email v)) (st ++ [u]) = Some u.
Proof.
  intros Hn He. induction st as [|v st IH]; simpl in *.
  - subst e. by rewrite String.eqb_refl.
  - destruct (String.eqb e (email v)); [discriminate|]. by apply IH.
Qed.

Lemma query_string_resolved lib w st e o :
  query lib w st (JString e) = Resolved o ->
  findOne_rejects w = false
  /\ o = List.find (fun v => String.eqb e (email v)) st.
Proof.
  unfold query. destruct (findOne_rejects w); [discriminate|].
  cbn. intros H. injection H as <-. by split.
Qed.

Lemma NoDup_snoc {A} (l : list A) x :
  List.NoDup l -> ~ In x l -> List.NoDup (l ++ [x]).
Proof.
  induction l as [|y l IH]; simpl; intros Hl Hx.
  - constructor; [intros [] | constructor].
  - apply List.NoDup_cons_iff in Hl as [Hy Hl].
    constructor.
    + rewrite in_app_iff. simpl. intros [H | [H | []]]; [tauto|].
      subst. tauto.
    + apply IH; tauto.
Qed.

(* ===================================================================== *)
(** ** Properties of the credential lifecycle *)
(* ===================================================================== *)

(** C9.  Presence is JavaScript truthiness: the empty string and [0] (like
    [null], [false] and [undefined]) are falsy, and a registration whose
    username, email or password is a falsy value is answered with 400, as
    is a login whose email or password is one. *)
Theorem falsy_field_is_absent :
  (truthy (JString "") = false /\ truthy (JNumber 0) = false
   /\ truthy JNull = false /\ truthy (JBool false) = false
   /\ truthy JUndefined = false)
  /\ forall lib env w body st v,
       truthy v = false ->
       ((body !! "username" = Some v \/ body !! "email" = Some v
         \/ body !! "password" = Some v) ->
        statusCode (res (signup lib env w (Some body) st)) = 400)
       /\ ((body !! "email" = Some v \/ body !! "password" = Some v) ->
           statusCode (res (login lib env w (Some body) st)) = 400).
Proof.
  split; [repeat split|].
  intros lib env w body st v Hv. split.
  - intros H. rewrite signup_missing; [reflexivity|].
    unfold some_absent, field.
    destruct H as [H | [H | H]]; rewrite H; cbn; tauto.
  - intros H. rewrite login_missing; [reflexivity|].
    unfold field. destruct H as [H | H]; rewrite H; cbn; tauto.
Qed.

Lemma falsy_field_is_absent_witness :
  truthy (JString "") = false
  /\ Sample.empty_password !! "password" = Some (JString "")
  /\ statusCode (res (signup Sample.lib Sample.env_dev Sample.world
                        (Some Sample.empty_password) [Sample.ann_record])) = 400
  /\ statusCode (res (login Sample.lib Sample.env_dev Sample.world
                        (Some Sample.empty_password) [Sample.ann_record])) = 400.
Proof.
  assert (Hv : truthy (JString "") = false) by reflexivity.
  assert (Hk : Sample.empty_password !! "password" = Some (JString ""))
    by (vm_compute; reflexivity).
  destruct falsy_field_is_absent as [_ H].
  destruct (H Sample.lib Sample.env_dev Sample.world Sample.empty_password
              [Sample.ann_record] (JString "") Hv) as [Hs Hl].
  split; [exact Hv|]. split; [exact Hk|]. split.
  - apply Hs. right. right. exact Hk.
  - apply Hl. right. exact Hk.
Defined.

(** C3, as stated, fails on the code: a registration request without a
    parsed body has none of the three fields, and is answered with 500,
    not 400: the destructuring of [req.body] throws inside the [try] and
    the [catch] answers. *)
Lemma signup_without_body :
  let r := signup Sample.lib Sample.env_dev Sample.world None [Sample.ann_record] in
  statusCode (res r) = 500
  /\ statusCode (res r) <> 400
  /\ db r = [Sample.ann_record]
  /\ cookies (res r) = []
  /\ trace r = [CallConsoleError "Signup Error:"].
Proof.
  cbv zeta. repeat split; try (vm_compute; reflexivity). vm_compute. discriminate.
Qed.

(** C3, amended.  For every registration whose body was parsed into an
    object: with a field that fails the presence test it is answered with
    400 before the collection is consulted (no library call is made,
    whatever the collection holds); with the three fields present and a
    document found under the email it is answered with 409.  Either way
    the collection is left as it was and no cookie is set. *)
Theorem signup_rejections lib env w body st :
  let r := signup lib env w (Some body) st in
  (some_absent body ->
     statusCode (res r) = 400 /\ db r = st /\ cookies (res r) = [] /\ trace r = [])
  /\ (all_present body ->
      forall u, query lib w st (field body "email") = Resolved (Some u) ->
        statusCode (res r) = 409 /\ db r = st /\ cookies (res r) = []
        /\ trace r = [CallFindOne (field body "email")])
  /\ (all_present body ->
      forall e v, field body "email" = JString e -> findOne_rejects w = false ->
        In v st -> email v = e ->
        statusCode (res r) = 409 /\ db r = st /\ cookies (res r) = []).
Proof.
  cbv zeta. split; [|split].
  - intros H. rewrite (signup_missing lib env w body st H). cbn. tauto.
  - intros H u Q. rewrite (signup_duplicate lib env w body st u H Q). cbn. tauto.
  - intros H e v E Hf Hv He.
    destruct (find_email_found st e v Hv He) as [u F].
    assert (Q : query lib w st (field body "email") = Resolved (Some u)).
    { rewrite E, (query_string lib w st e Hf), F. reflexivity. }
    rewrite (signup_duplicate lib env w body st u H Q). cbn. tauto.
Qed.

Lemma signup_rejections_witness :
  (some_absent Sample.empty_password
   /\ statusCode (res (signup Sample.lib Sample.env_dev Sample.world
                         (Some Sample.empty_password) [Sample.ann_record])) = 400
   /\ db (signup Sample.lib Sample.env_dev Sample.world
            (Some Sample.empty_password) [Sample.ann_record]) = [Sample.ann_record])
  /\ (all_present Sample.ann
      /\ query Sample.lib Sample.world [Sample.ann_record] (field Sample.ann "email")
         = Resolved (Some Sample.ann_record)
      /\ statusCode (res (signup Sample.lib Sample.env_dev Sample.world
                            (Some Sample.ann) [Sample.ann_record])) = 409
      /\ db (signup Sample.lib Sample.env_dev Sample.world
               (Some Sample.ann) [Sample.ann_record]) = [Sample.ann_record]).
Proof.
  assert (Ha : some_absent Sample.empty_password)
    by (right; right; vm_compute; reflexivity).
  assert (Hp : all_present Sample.ann) by (repeat split; vm_compute; reflexivity).
  assert (Hq : query Sample.lib Sample.world [Sample.ann_record]
                 (field Sample.ann "email") = Resolved (Some Sample.ann_record))
    by (vm_compute; reflexivity).
  split.
  - destruct (signup_rejections Sample.lib Sample.env_dev Sample.world
                Sample.empty_password [Sample.ann_record]) as [H _].
    destruct (H Ha) as (H1 & H2 & _). auto.
  - destruct (signup_rejections Sample.lib Sample.env_dev Sample.world
                Sample.ann [Sample.ann_record]) as (_ & H & H').
    destruct (H Hp Sample.ann_record Hq) as (H1 & H2 & _).
    destruct (H' Hp "ann@example.org" Sample.ann_record
                ltac:(vm_compute; reflexivity) eq_refl
                ltac:(left; reflexivity) eq_refl) as (H3 & _).
    auto.
Defined.

(** C4, as stated, fails on the code.  A login request without a parsed
    body has neither field and is answered with 500, not 400.  And a login
    with its email and password present, a stored document under the email
    and a password that is a number, which does not check against any
    digest, is answered with 500, not 401: [compareSync] throws on it. *)
Lemma login_rejections_have_gaps :
  (statusCode (res (login Sample.lib Sample.env_dev Sample.world None
                      [Sample.ann_record])) = 500
   /\ trace (login Sample.lib Sample.env_dev Sample.world None [Sample.ann_record])
      = [CallConsoleError "Login Error:"])
  /\ (truthy (field Scenario.ann_numeric_password "email") = true
      /\ truthy (field Scenario.ann_numeric_password "password") = true
      /\ query Sample.lib Sample.world [Sample.ann_record]
           (field Scenario.ann_numeric_password "email")
         = Resolved (Some Sample.ann_record)
      /\ field Scenario.ann_numeric_password "password" = JNumber 1234
      /\ statusCode (res (login Sample.lib Sample.env_dev Sample.world
                            (Some Scenario.ann_numeric_password)
                            [Sample.ann_record])) = 500
      /\ statusCode (res (login Sample.lib Sample.env_dev Sample.world
                            (Some Scenario.ann_numeric_password)
                            [Sample.ann_record])) <> 401
      /\ trace (login Sample.lib Sample.env_dev Sample.world
                  (Some Scenario.ann_numeric_password) [Sample.ann_record])
         = [CallFindOne (JString "ann@example.org");
            CallCompareSync (JNumber 1234) "$2a$hunter2";
            CallConsoleError "Login Error:"]).
Proof.
  repeat split; try (vm_compute; reflexivity). vm_compute. discriminate.
Qed.

(** C4, amended.  For every login whose body was parsed into an object,
    the failures are, in the order they are tested: 400 when the email or
    the password fails the presence test; otherwise 404 when the lookup
    finds no document; otherwise 401 when the password is a string that
    does not check against the stored digest, and 500 when the password is
    not a string.  On each of them no cookie is set and [jwt.sign] is not
    called. *)
Theorem login_rejections lib env w body st :
  let r := login lib env w (Some body) st in
  let f_email := field body "email" in
  let f_password := field body "password" in
  (truthy f_email = false \/ truthy f_password = false ->
     statusCode (res r) = 400 /\ cookies (res r) = [] /\ trace r = [])
  /\ (truthy f_email = true -> truthy f_password = true ->
      query lib w st f_email = Resolved None ->
        statusCode (res r) = 404 /\ cookies (res r) = []
        /\ trace r = [CallFindOne f_email])
  /\ (truthy f_email = true -> truthy f_password = true ->
      forall u p,
        query lib w st f_email = Resolved (Some u) ->
        f_password = JString p ->
        bcrypt_check lib p (password u) = false ->
        statusCode (res r) = 401 /\ cookies (res r) = []
        /\ trace r = [CallFindOne f_email; CallCompareSync f_password (password u)])
  /\ (truthy f_email = true -> truthy f_password = true ->
      forall e, f_email = JString e -> findOne_rejects w = false ->
        (forall v, In v st -> email v <> e) ->
        statusCode (res r) = 404 /\ cookies (res r) = [])
  /\ (truthy f_email = true -> truthy f_password = true ->
      forall u,
        query lib w st f_email = Resolved (Some u) ->
        (forall p, f_password <> JString p) ->
        statusCode (res r) = 500 /\ cookies (res r) = []
        /\ trace r = [CallFindOne f_email; CallCompareSync f_password (password u);
                      CallConsoleError "Login Error:"]).
Proof.
  cbv zeta. split; [|split; [|split; [|split]]].
  - intros H. rewrite (login_missing lib env w body st H). cbn. tauto.
  - intros He Hp Q. rewrite (login_not_found lib env w body st He Hp Q). cbn. tauto.
  - intros He Hp u p Q P C.
    rewrite (login_bad_password lib env w body st u p He Hp Q P C). cbn. tauto.
  - intros He Hp e E Hf Hno.
    assert (Q : query lib w st (field body "email") = Resolved None).
    { rewrite E, (query_string lib w st e Hf), (find_email_none st e Hno).
      reflexivity. }
    rewrite (login_not_found lib env w body st He Hp Q). cbn. tauto.
  - intros He Hp u Q P.
    rewrite (login_compare_thrown lib env w body st u He Hp Q P). cbn. tauto.
Qed.

Lemma login_rejections_witness :
  (truthy (field Sample.empty_password "password") = false
   /\ statusCode (res (login Sample.lib Sample.env_dev Sample.world
                         (Some Sample.empty_password) [Sample.ann_record])) = 400)
  /\ (query Sample.lib Sample.world [Sample.ann_record]
        (field Sample.unknown_email "email") = Resolved None
      /\ statusCode (res (login Sample.lib Sample.env_dev Sample.world
                            (Some Sample.unknown_email) [Sample.ann_record])) = 404)
  /\ (query Sample.lib Sample.world [Sample.ann_record]
        (field Sample.wrong_password "email") = Resolved (Some Sample.ann_record)
      /\ bcrypt_check Sample.lib "hunter3" (password Sample.ann_record) = false
      /\ statusCode (res (login Sample.lib Sample.env_dev Sample.world
                            (Some Sample.wrong_password) [Sample.ann_record])) = 401
      /\ cookies (res (login Sample.lib Sample.env_dev Sample.world
                         (Some Sample.wrong_password) [Sample.ann_record])) = []
      /\ statusCode (res (login Sample.lib Sample.env_dev Sample.world
                            (Some Scenario.ann_numeric_password)
                            [Sample.ann_record])) = 500).
Proof.
  assert (Ha : truthy (field Sample.empty_password "password") = false)
    by (vm_compute; reflexivity).
  assert (Hn : query Sample.lib Sample.world [Sample.ann_record]
                 (field Sample.unknown_email "email") = Resolved None)
    by (vm_compute; reflexivity).
  assert (Hq : query Sample.lib Sample.world [Sample.ann_record]
                 (field Sample.wrong_password "email") = Resolved (Some Sample.ann_record))
    by (vm_compute; reflexivity).
  assert (Hc : bcrypt_check Sample.lib "hunter3" (password Sample.ann_record) = false)
    by (vm_compute; reflexivity).
  split; [|split].
  - destruct (login_rejections Sample.lib Sample.env_dev Sample.world
                Sample.empty_password [Sample.ann_record]) as [H _].
    destruct (H (or_intror Ha)) as (H1 & _). auto.
  - destruct (login_rejections Sample.lib Sample.env_dev Sample.world
                Sample.unknown_email [Sample.ann_record]) as (_ & H & _ & H' & _).
    assert (H1 := H ltac:(vm_compute; reflexivity) ltac:(vm_compute; reflexivity) Hn).
    assert (H2 := H' ltac:(vm_compute; reflexivity) ltac:(vm_compute; reflexivity)
                     "eve@example.org" ltac:(vm_compute; reflexivity) eq_refl
                     ltac:(intros v [<- | []]; discriminate)).
    destruct H1 as (H1 & _). auto.
  - destruct (login_rejections Sample.lib Sample.env_dev Sample.world
                Scenario.ann_numeric_password [Sample.ann_record]) as (_ & _ & _ & _ & H5).
    assert (H500 := H5 ltac:(vm_compute; reflexivity) ltac:(vm_compute; reflexivity)
                      Sample.ann_record ltac:(vm_compute; reflexivity)
                      ltac:(intros p E; vm_compute in E; discriminate)).
    destruct (login_rejections Sample.lib Sample.env_dev Sample.world
                Sample.wrong_password [Sample.ann_record]) as (_ & _ & H & _).
    assert (H1 := H ltac:(vm_compute; reflexivity) ltac:(vm_compute; reflexivity)
                    Sample.ann_record "hunter3" Hq
                    ltac:(vm_compute; reflexivity) Hc).
    destruct H1 as (H1 & H2 & _). destruct H500 as (H500 & _). auto.
Defined.

(** C8.  No request deletes or changes a stored document: a login leaves
    the collection as it was, and a registration leaves it as it was or
    appends one document to it. *)
Theorem records_never_change lib env w req st :
  db (login lib env w req st) = st
  /\ (db (signup lib env w req st) = st
      \/ exists u, db (signup lib env w req st) = st ++ [u]).
Proof.
  destruct req as [body|]; [|split; [reflexivity | left; reflexivity]].
  split.
  - apply (login_outcomes lib env w body st).
  - destruct (signup_outcomes lib env w body st) as [(H & _) | [(u & H & _) | (u & k & H & _)]];
      eauto.
Qed.

Lemma jwt_sign_returns now id key s :
  key <> "" ->
  jwt_sign now id (Some key) "4d" s
  = ({| db := db s; res := res s; trace := trace s ++ [CallJwtSign id] |},
     Normal {| jwt_id := id; jwt_iat := now / 1000;
               jwt_exp := now / 1000 + 4 * 24 * 60 * 60; jwt_key := key |}).
Proof.
  intros Hk. apply String.eqb_neq in Hk.
  unfold jwt_sign, bind, log, pure, throw. rewrite Hk. reflexivity.
Qed.

(** C7.  On every registration answered with 201 and every login answered
    with 200 exactly one cookie is set.  It is named [X_TTMS_access_token],
    is HTTP-only, is secure exactly when [NODE_ENV] is [production], has
    [SameSite] lax and a max-age of 4 days (in milliseconds).  Its value is
    the token that [jwt.sign] returned in this request: signed with
    [JWT_SECRET] for the [_id] of the document written (registration) or
    found (login), issued at the second of the request's clock and
    expiring 4 days (in seconds) after that. *)
Theorem session_cookie_on_success lib env w req st :
  (statusCode (res (signup lib env w req st)) = 201 ->
     exists c u key,
       cookies (res (signup lib env w req st)) = [c] /\ session_cookie env c
       /\ db (signup lib env w req st) = st ++ [u]
       /\ env !! "JWT_SECRET" = Some key
       /\ ck_value c = {| jwt_id := _id u; jwt_iat := clock_sign w / 1000;
                          jwt_exp := clock_sign w / 1000 + 4 * 24 * 60 * 60;
                          jwt_key := key |}
       /\ (forall s, snd (jwt_sign (clock_sign w) (_id u) (env !! "JWT_SECRET") "4d" s)
                     = Normal (ck_value c))
       /\ In (CallJwtSign (_id u)) (trace (signup lib env w req st)))
  /\ (statusCode (res (login lib env w req st)) = 200 ->
      exists c u key,
        cookies (res (login lib env w req st)) = [c] /\ session_cookie env c
        /\ In u st
        /\ env !! "JWT_SECRET" = Some key
        /\ ck_value c = {| jwt_id := _id u; jwt_iat := clock_sign w / 1000;
                           jwt_exp := clock_sign w / 1000 + 4 * 24 * 60 * 60;
                           jwt_key := key |}
        /\ (forall s, snd (jwt_sign (clock_sign w) (_id u) (env !! "JWT_SECRET") "4d" s)
                      = Normal (ck_value c))
        /\ In (CallJwtSign (_id u)) (trace (login lib env w req st))).
Proof.
  destruct req as [body|]; [|split; intros E; discriminate E].
  split.
  - on_signup_path lib env w body st; intros E; try (cbn in E; discriminate E).
    exists (access_cookie env (token_for w (_id u) key)), u, key.
    split; [reflexivity|]. split; [apply access_cookie_session|].
    split; [reflexivity|]. split; [assumption|]. split; [reflexivity|].
    split.
    + intros s.
      match goal with K : env !! "JWT_SECRET" = Some key |- _ => rewrite K end.
      rewrite jwt_sign_returns by assumption. reflexivity.
    + right. right. right. left. reflexivity.
  - on_login_path lib env w body st; intros E; try (cbn in E; discriminate E).
    exists (access_cookie env (token_for w (_id u) key)), u, key.
    split; [reflexivity|]. split; [apply access_cookie_session|].
    split; [eapply query_resolved_in; eassumption|].
    split; [assumption|]. split; [reflexivity|].
    split.
    + intros s.
      match goal with K : env !! "JWT_SECRET" = Some key |- _ => rewrite K end.
      rewrite jwt_sign_returns by assumption. reflexivity.
    + right. right. left. reflexivity.
Qed.

Lemma session_cookie_on_success_witness :
  (statusCode (res (signup Sample.lib Sample.env_prod Sample.world (Some Scenario.bob)
                      [Sample.ann_record])) = 201
   /\ exists c, cookies (res (signup Sample.lib Sample.env_prod Sample.world
                                 (Some Scenario.bob) [Sample.ann_record])) = [c]
                /\ session_cookie Sample.env_prod c /\ ck_secure c = true
                /\ ck_value c = {| jwt_id := "65f0a1"; jwt_iat := 1700000000;
                                   jwt_exp := 1700345600; jwt_key := "s3cret" |})
  /\ (statusCode (res (login Sample.lib Sample.env_dev Scenario.later (Some Sample.ann)
                         [Sample.ann_record])) = 200
      /\ exists c, cookies (res (login Sample.lib Sample.env_dev Scenario.later
                                   (Some Sample.ann) [Sample.ann_record])) = [c]
                   /\ session_cookie Sample.env_dev c /\ ck_secure c = false
                   /\ ck_value c = {| jwt_id := "65e000"; jwt_iat := 1700000100;
                                      jwt_exp := 1700345700; jwt_key := "s3cret" |}).
Proof.
  assert (Hs : statusCode (res (signup Sample.lib Sample.env_prod Sample.world
                                  (Some Scenario.bob) [Sample.ann_record])) = 201)
    by (vm_compute; reflexivity).
  assert (Hl : statusCode (res (login Sample.lib Sample.env_dev Scenario.later
                                  (Some Sample.ann) [Sample.ann_record])) = 200)
    by (vm_compute; reflexivity).
  split.
  - split; [exact Hs|].
    destruct (session_cookie_on_success Sample.lib Sample.env_prod Sample.world
                (Some Scenario.bob) [Sample.ann_record]) as [H _].
    destruct (H Hs) as (c & u & key & Hc & Hok & Hdb & Hk & Hv & _).
    exists c. split; [exact Hc|]. split; [exact Hok|].
    split; [apply Hok; vm_compute; reflexivity|].
    assert (Hu : u = Scenario.bob_record).
    { assert (E : db (signup Sample.lib Sample.env_prod Sample.world (Some Scenario.bob)
                        [Sample.ann_record]) = [Sample.ann_record] ++ [Scenario.bob_record])
        by (vm_compute; reflexivity).
      rewrite E in Hdb. apply app_inv_head in Hdb. congruence. }
    assert (Hkey : key = "s3cret").
    { assert (E : Sample.env_prod !! "JWT_SECRET" = Some "s3cret")
        by (vm_compute; reflexivity).
      congruence. }
    rewrite Hv, Hu, Hkey. vm_compute. reflexivity.
  - split; [exact Hl|].
    destruct (session_cookie_on_success Sample.lib Sample.env_dev Scenario.later
                (Some Sample.ann) [Sample.ann_record]) as [_ H].
    destruct (H Hl) as (c & u & key & Hc & Hok & Hin & Hk & Hv & _).
    exists c. split; [exact Hc|]. split; [exact Hok|].
    split.
    { destruct (ck_secure c) eqn:E; [|reflexivity].
      destruct Hok as (_ & _ & Hsec & _). apply Hsec in E. vm_compute in E.
      discriminate. }
    assert (Hu : u = Sample.ann_record) by (destruct Hin as [<- | []]; reflexivity).
    assert (Hkey : key = "s3cret").
    { assert (E : Sample.env_dev !! "JWT_SECRET" = Some "s3cret")
        by (vm_compute; reflexivity).
      congruence. }
    rewrite Hv, Hu, Hkey. vm_compute. reflexivity.
Defined.

(** C5.  A registration with its three fields present on which a library
    call fails is answered with 500: when the lookup rejects, when the
    hasher throws, when the insert rejects (in these the collection is left
    as it was), and when the signing secret is missing after the insert
    succeeded.  In that last case the new document is not rolled back: it
    stays in the collection, and no cookie is set. *)
Theorem signup_dependency_failure lib env w body st :
  all_present body ->
  let r := signup lib env w (Some body) st in
  let f_username := field body "username" in
  let f_email := field body "email" in
  let f_password := field body "password" in
  (forall e, query lib w st f_email = Rejected e ->
     statusCode (res r) = 500 /\ db r = st)
  /\ (query lib w st f_email = Resolved None ->
      (forall p, f_password <> JString p) ->
      statusCode (res r) = 500 /\ db r = st)
  /\ (query lib w st f_email = Resolved None ->
      forall p st' e,
        f_password = JString p ->
        insertOne w st (new_User lib w f_username f_email (bcrypt_hash lib p 10 (salt w)))
          = (st', Rejected e) ->
        statusCode (res r) = 500 /\ db r = st)
  /\ (query lib w st f_email = Resolved None ->
      forall p st' u,
        f_password = JString p ->
        insertOne w st (new_User lib w f_username f_email (bcrypt_hash lib p 10 (salt w)))
          = (st', Resolved u) ->
        env_truthy env "JWT_SECRET" = false ->
        statusCode (res r) = 500 /\ db r = st ++ [u] /\ In u (db r)
        /\ cookies (res r) = []
        /\ (forall id, ~ In (CallJwtSign id) (trace r))).
Proof.
  intros Hp. cbv zeta. split; [|split; [|split]].
  - intros e Q. rewrite (signup_lookup_thrown lib env w body st e Hp Q).
    split; reflexivity.
  - intros Q P. rewrite (signup_hash_thrown lib env w body st Hp Q P).
    split; reflexivity.
  - intros Q p st' e P I.
    rewrite (signup_insert_thrown lib env w body st p st' e Hp Q P I).
    split; reflexivity.
  - intros Q p st' u P I S.
    rewrite (signup_no_secret lib env w body st p st' u Hp Q P I S). cbn.
    destruct (insertOne_normal _ _ _ _ _ I) as [-> _].
    split; [reflexivity|]. split; [reflexivity|]. split.
    { apply in_or_app. right. left. reflexivity. }
    split; [reflexivity|].
    intros id [E | [E | [E | [E | []]]]]; discriminate.
Qed.

Lemma signup_dependency_failure_witness :
  (all_present Sample.ann
   /\ query Sample.lib Sample.world_db_down [] (field Sample.ann "email")
      = Rejected "MongoServerSelectionError"
   /\ statusCode (res (signup Sample.lib Sample.env_dev Sample.world_db_down
                         (Some Sample.ann) [])) = 500)
  /\ (all_present Sample.numeric_password
      /\ statusCode (res (signup Sample.lib Sample.env_dev Sample.world
                            (Some Sample.numeric_password) [])) = 500)
  /\ (all_present Sample.ann2
      /\ statusCode (res (signup Sample.lib Sample.env_dev Sample.world
                            (Some Sample.ann2) [Sample.ann_record])) = 500
      /\ db (signup Sample.lib Sample.env_dev Sample.world
               (Some Sample.ann2) [Sample.ann_record]) = [Sample.ann_record])
  /\ (env_truthy Sample.env_no_secret "JWT_SECRET" = false
      /\ statusCode (res (signup Sample.lib Sample.env_no_secret Sample.world
                            (Some Sample.ann) [])) = 500
      /\ db (signup Sample.lib Sample.env_no_secret Sample.world (Some Sample.ann) [])
         = [created Sample.world "ann" "ann@example.org" "$2a$hunter2"]).
Proof.
  assert (Hann : all_present Sample.ann) by (repeat split; vm_compute; reflexivity).
  assert (Hnum : all_present Sample.numeric_password)
    by (repeat split; vm_compute; reflexivity).
  assert (Hann2 : all_present Sample.ann2) by (repeat split; vm_compute; reflexivity).
  split; [|split; [|split]].
  - split; [exact Hann|]. split; [vm_compute; reflexivity|].
    destruct (signup_dependency_failure Sample.lib Sample.env_dev Sample.world_db_down
                Sample.ann [] Hann) as (H & _).
    apply (H "MongoServerSelectionError"). vm_compute. reflexivity.
  - split; [exact Hnum|].
    destruct (signup_dependency_failure Sample.lib Sample.env_dev Sample.world
                Sample.numeric_password [] Hnum) as (_ & H & _).
    apply H; [vm_compute; reflexivity|]. intros p E. vm_compute in E. discriminate.
  - split; [exact Hann2|].
    destruct (signup_dependency_failure Sample.lib Sample.env_dev Sample.world
                Sample.ann2 [Sample.ann_record] Hann2) as (_ & _ & H & _).
    apply (H ltac:(vm_compute; reflexivity) "tr0ub4dor" [Sample.ann_record]
             "E11000 duplicate key error");
      vm_compute; reflexivity.
  - split; [vm_compute; reflexivity|].
    destruct (signup_dependency_failure Sample.lib Sample.env_no_secret Sample.world
                Sample.ann [] Hann) as (_ & _ & _ & H).
    destruct (H ltac:(vm_compute; reflexivity) "hunter2"
                [created Sample.world "ann" "ann@example.org" "$2a$hunter2"]
                (created Sample.world "ann" "ann@example.org" "$2a$hunter2")
                ltac:(vm_compute; reflexivity) ltac:(vm_compute; reflexivity)
                ltac:(vm_compute; reflexivity)) as (H1 & H2 & _).
    split; [exact H1 | exact H2].
Defined.

(** C10.  The duplicate check of a registration looks at the email only.
    With the three fields present, no document found under the email and
    the user name held by a stored document, the answer is not 409 but
    500: the hasher is called, and with a string password the insert is
    attempted and refused by the unique index on [username], which leaves
    the collection as it was. *)
Theorem duplicate_username_is_a_server_error lib env w body st un v :
  all_present body ->
  query lib w st (field body "email") = Resolved None ->
  castString lib (field body "username") = Some un ->
  In v st -> username v = un ->
  let r := signup lib env w (Some body) st in
  statusCode (res r) = 500 /\ statusCode (res r) <> 409
  /\ db r = st /\ cookies (res r) = []
  /\ In (CallHashSync (field body "password") 10) (trace r)
  /\ (forall p, field body "password" = JString p ->
        trace r = [CallFindOne (field body "email");
                   CallHashSync (field body "password") 10;
                   CallSave (new_id w); CallConsoleError "Signup Error:"]).
Proof.
  intros Hp Q Hc Hv Hun. cbv zeta.
  destruct (string_or_not (field body "password")) as [[p P] | P].
  - destruct (insertOne_taken_username lib w st (field body "username")
                (field body "email") (bcrypt_hash lib p 10 (salt w)) un v Hc Hv Hun)
      as [e I].
    rewrite (signup_insert_thrown lib env w body st p st e Hp Q P I). cbn.
    repeat split; try reflexivity; try discriminate.
    right. left. reflexivity.
  - rewrite (signup_hash_thrown lib env w body st Hp Q P). cbn.
    repeat split; try reflexivity; try discriminate.
    + right. left. reflexivity.
    + intros p E. exfalso. exact (P p E).
Qed.

Lemma duplicate_username_is_a_server_error_witness :
  all_present Sample.ann2
  /\ query Sample.lib Sample.world [Sample.ann_record] (field Sample.ann2 "email")
     = Resolved None
  /\ username Sample.ann_record = "ann"
  /\ statusCode (res (signup Sample.lib Sample.env_dev Sample.world (Some Sample.ann2)
                        [Sample.ann_record])) = 500
  /\ db (signup Sample.lib Sample.env_dev Sample.world (Some Sample.ann2)
           [Sample.ann_record]) = [Sample.ann_record].
Proof.
  assert (Hp : all_present Sample.ann2) by (repeat split; vm_compute; reflexivity).
  assert (Hq : query Sample.lib Sample.world [Sample.ann_record]
                 (field Sample.ann2 "email") = Resolved None)
    by (vm_compute; reflexivity).
  assert (Hc : castString Sample.lib (field Sample.ann2 "username") = Some "ann")
    by (vm_compute; reflexivity).
  assert (Hv : In Sample.ann_record [Sample.ann_record]) by (left; reflexivity).
  destruct (duplicate_username_is_a_server_error Sample.lib Sample.env_dev Sample.world
              Sample.ann2 [Sample.ann_record] "ann" Sample.ann_record Hp Hq Hc Hv eq_refl)
    as (H1 & _ & H2 & _).
  repeat split; assumption || (vm_compute; reflexivity).
Defined.

(** C6, as stated, fails on the code: with the connection string set, the
    database reachable and no signing secret, the process does not exit
    but listens, and the missing secret shows first in the answer to a
    request. *)
Lemma missing_secret_is_not_fatal_at_startup :
  env_truthy Sample.env_no_secret "JWT_SECRET" = false
  /\ startup Sample.env_no_secret true Bound = Listening
  /\ statusCode (res (signup Sample.lib Sample.env_no_secret Sample.world
                        (Some Sample.ann) [])) = 500
  /\ ~ (forall env connect_ok listen,
          env_truthy env "JWT_SECRET" = false ->
          exists code, startup env connect_ok listen = Exited code).
Proof.
  assert (H1 : env_truthy Sample.env_no_secret "JWT_SECRET" = false)
    by (vm_compute; reflexivity).
  assert (H2 : startup Sample.env_no_secret true Bound = Listening)
    by (vm_compute; reflexivity).
  split; [exact H1|]. split; [exact H2|]. split; [vm_compute; reflexivity|].
  intros H. destruct (H Sample.env_no_secret true Bound H1) as [code E].
  rewrite H2 in E. discriminate.
Qed.

(** C6, amended.  A missing database connection string makes the process
    exit at startup with code 1.  The signing secret is not read at
    startup: whether the process exits or listens is the same with the
    secret set, changed or removed.  Its absence is met while a request is
    handled: a registration that has inserted its document, and a login
    whose password has checked, are answered with 500. *)
Theorem startup_checks_database_only lib env connect_ok listen :
  (env_truthy env "MONGO_URI" = false ->
     startup env connect_ok listen = Exited 1)
  /\ (forall secret,
        startup (<["JWT_SECRET" := secret]> env) connect_ok listen
        = startup env connect_ok listen)
  /\ startup (delete "JWT_SECRET" env) connect_ok listen
     = startup env connect_ok listen
  /\ (env_truthy env "JWT_SECRET" = false ->
      forall w body st,
        (all_present body ->
         query lib w st (field body "email") = Resolved None ->
         forall p st' u,
           field body "password" = JString p ->
           insertOne w st (new_User lib w (field body "username") (field body "email")
                             (bcrypt_hash lib p 10 (salt w))) = (st', Resolved u) ->
           statusCode (res (signup lib env w (Some body) st)) = 500)
        /\ (truthy (field body "email") = true ->
            forall u p,
              query lib w st (field body "email") = Resolved (Some u) ->
              field body "password" = JString p -> p <> "" ->
              bcrypt_check lib p (password u) = true ->
              statusCode (res (login lib env w (Some body) st)) = 500)).
Proof.
  split; [|split; [|split]].
  - intros H. unfold startup, connectDB. rewrite H. reflexivity.
  - intros secret. unfold startup, connectDB, env_truthy.
    rewrite lookup_insert_ne by discriminate. reflexivity.
  - unfold startup, connectDB, env_truthy.
    rewrite lookup_delete_ne by discriminate. reflexivity.
  - intros S w body st. split.
    + intros Hp Q p st' u P I.
      rewrite (signup_no_secret lib env w body st p st' u Hp Q P I S). reflexivity.
    + intros He u p Q P Hne C.
      assert (Hp : truthy (field body "password") = true).
      { rewrite P. cbn. apply String.eqb_neq in Hne. rewrite Hne. reflexivity. }
      rewrite (login_no_secret lib env w body st u p He Hp Q P C S). reflexivity.
Qed.

Lemma startup_checks_database_only_witness :
  (env_truthy (∅ : gmap string string) "MONGO_URI" = false
   /\ startup ∅ true Bound = Exited 1)
  /\ (env_truthy Sample.env_no_secret "JWT_SECRET" = false
      /\ statusCode (res (signup Sample.lib Sample.env_no_secret Sample.world
                            (Some Sample.ann) [])) = 500
      /\ statusCode (res (login Sample.lib Sample.env_no_secret Sample.world
                            (Some Sample.ann) [Sample.ann_record])) = 500).
Proof.
  assert (H0 : env_truthy (∅ : gmap string string) "MONGO_URI" = false)
    by (vm_compute; reflexivity).
  assert (H1 : env_truthy Sample.env_no_secret "JWT_SECRET" = false)
    by (vm_compute; reflexivity).
  split.
  - split; [exact H0|].
    destruct (startup_checks_database_only Sample.lib ∅ true Bound) as (H & _).
    exact (H H0).
  - split; [exact H1|].
    destruct (startup_checks_database_only Sample.lib Sample.env_no_secret true Bound)
      as (_ & _ & _ & H).
    split.
    + destruct (H H1 Sample.world Sample.ann []) as (Hs & _).
      apply (Hs ltac:(repeat split; vm_compute; reflexivity)
                ltac:(vm_compute; reflexivity) "hunter2"
                [created Sample.world "ann" "ann@example.org" "$2a$hunter2"]
                (created Sample.world "ann" "ann@example.org" "$2a$hunter2"));
        vm_compute; reflexivity.
    + destruct (H H1 Sample.world Sample.ann [Sample.ann_record]) as (_ & Hl).
      apply (Hl ltac:(vm_compute; reflexivity) Sample.ann_record "hunter2");
        try (vm_compute; reflexivity).
      discriminate.
Defined.

(** C1, as stated, fails on the code: a registration with its three
    fields present and an email that matches no document is answered with
    500, and gets no cookie, when the signing secret is missing (the
    document is written all the same), when the user name is taken
    (nothing is written), when the password is not a string (nothing is
    written), and when the user name is an object, which Mongoose does not
    cast to a string (nothing is written). *)
Lemma registration_needs_working_dependencies :
  (all_present Sample.ann
   /\ query Sample.lib Sample.world [] (field Sample.ann "email") = Resolved None
   /\ statusCode (res (signup Sample.lib Sample.env_no_secret Sample.world
                         (Some Sample.ann) [])) = 500
   /\ cookies (res (signup Sample.lib Sample.env_no_secret Sample.world
                      (Some Sample.ann) [])) = []
   /\ length (db (signup Sample.lib Sample.env_no_secret Sample.world
                    (Some Sample.ann) [])) = 1%nat)
  /\ (all_present Sample.ann2
      /\ query Sample.lib Sample.world [Sample.ann_record] (field Sample.ann2 "email")
         = Resolved None
      /\ statusCode (res (signup Sample.lib Sample.env_dev Sample.world
                            (Some Sample.ann2) [Sample.ann_record])) = 500
      /\ db (signup Sample.lib Sample.env_dev Sample.world
               (Some Sample.ann2) [Sample.ann_record]) = [Sample.ann_record])
  /\ (all_present Sample.numeric_password
      /\ query Sample.lib Sample.world [] (field Sample.numeric_password "email")
         = Resolved None
      /\ statusCode (res (signup Sample.lib Sample.env_dev Sample.world
                            (Some Sample.numeric_password) [])) = 500
      /\ db (signup Sample.lib Sample.env_dev Sample.world
               (Some Sample.numeric_password) []) = [])
  /\ (all_present Scenario.object_username
      /\ query Sample.lib Sample.world [] (field Scenario.object_username "email")
         = Resolved None
      /\ statusCode (res (signup Sample.lib Sample.env_dev Sample.world
                            (Some Scenario.object_username) [])) = 500
      /\ db (signup Sample.lib Sample.env_dev Sample.world
               (Some Scenario.object_username) []) = []).
Proof.
  unfold all_present. repeat split; vm_compute; reflexivity.
Qed.

Lemma insertOne_accepts lib w st name mail digest un em :
  required (castString lib name) = Some un ->
  required (castString lib mail) = Some em ->
  digest <> "" ->
  save_rejects w = false ->
  (forall v, In v st -> _id v <> new_id w /\ username v <> un /\ email v <> em) ->
  insertOne w st (new_User lib w name mail digest)
  = (st ++ [created w un em digest], Resolved (created w un em digest)).
Proof.
  intros Hun Hem Hd Hs Hfree. unfold insertOne, new_User.
  cbn [draft_username draft_email draft_password draft_id].
  rewrite Hun, Hem, (required_nonempty digest Hd), Hs.
  fold (created w un em digest).
  rewrite (index_free_fresh st (created w un em digest)); [reflexivity|].
  exact Hfree.
Qed.

Lemma casting_hasher_contract : hasher_contract Scenario.casting.
Proof. exact sample_hasher_contract. Qed.

(** C1, amended.  For every registration whose username, email and
    password are all present, whose password is a string, whose username
    and email pass the schema (each is cast to a string that is not
    empty; a string is cast to itself), whose email matches no stored
    document and whose user name is held by none, and on which no library
    call fails (the database answers the lookup and the insert, the
    generated [_id] is unused, the signing secret is set): exactly one
    document is appended, whose password field is the bcrypt digest of the
    plaintext at cost 10 (not the plaintext, and one that the plaintext
    checks against); the answer is 201, carries the session cookie with a
    token for the new [_id], and returns the document without its
    password field. *)
Theorem registration_creates_account lib env w body st un em pw key :
  hasher_contract lib ->
  all_present body ->
  field body "password" = JString pw ->
  required (castString lib (field body "username")) = Some un ->
  required (castString lib (field body "email")) = Some em ->
  query lib w st (field body "email") = Resolved None ->
  save_rejects w = false ->
  (forall v, In v st -> email v <> em) ->
  (forall v, In v st -> username v <> un) ->
  (forall v, In v st -> _id v <> new_id w) ->
  env !! "JWT_SECRET" = Some key -> key <> "" ->
  let r := signup lib env w (Some body) st in
  let u := created w un em (bcrypt_hash lib pw 10 (salt w)) in
  db r = st ++ [u]
  /\ password u = bcrypt_hash lib pw 10 (salt w)
  /\ password u <> pw
  /\ bcrypt_check lib pw (password u) = true
  /\ statusCode (res r) = 201
  /\ (exists c, cookies (res r) = [c] /\ session_cookie env c
        /\ jwt_id (ck_value c) = new_id w /\ jwt_key (ck_value c) = key)
  /\ (exists rest,
        sent (res r) = Some {| success := true;
                               message := "User Created and Logged In Successfully";
                               user := Some rest |}
        /\ rest !! "password" = None
        /\ (forall k, k <> "password" -> rest !! k = _doc u !! k)).
Proof.
  intros (Hcheck & Hplain & Hfull) Hp Ep Hun Hem Q Hs Hmail Hname Hid Hk Hkey.
  cbv zeta.
  assert (I : insertOne w st (new_User lib w (field body "username") (field body "email")
                                (bcrypt_hash lib pw 10 (salt w)))
              = (st ++ [created w un em (bcrypt_hash lib pw 10 (salt w))],
                 Resolved (created w un em (bcrypt_hash lib pw 10 (salt w))))).
  { apply insertOne_accepts; auto. }
  rewrite (signup_created lib env w body st pw _ _ key Hp Q Ep I Hk Hkey). cbn.
  split; [reflexivity|]. split; [reflexivity|]. split; [apply Hplain|].
  split; [apply Hcheck|]. split; [reflexivity|]. split.
  - eexists. split; [reflexivity|]. split; [apply access_cookie_session|].
    split; reflexivity.
  - eexists. split; [reflexivity|]. apply rest_has_no_password.
Qed.

Lemma registration_creates_account_witness :
  (statusCode (res (signup Sample.lib Sample.env_dev Sample.world (Some Scenario.bob)
                      [Sample.ann_record])) = 201
   /\ db (signup Sample.lib Sample.env_dev Sample.world (Some Scenario.bob)
            [Sample.ann_record])
      = [Sample.ann_record; Scenario.bob_record])
  /\ (statusCode (res (signup Scenario.casting Sample.env_dev Sample.world
                         (Some Scenario.seven) [Sample.ann_record])) = 201
      /\ db (signup Scenario.casting Sample.env_dev Sample.world (Some Scenario.seven)
               [Sample.ann_record])
         = [Sample.ann_record;
            created Sample.world "7" "seven@example.org" "$2a$se7en"]).
Proof.
  split.
  - destruct (registration_creates_account Sample.lib Sample.env_dev Sample.world
                Scenario.bob [Sample.ann_record] "bob" "bob@example.org"
                "correct horse" "s3cret"
                sample_hasher_contract
                ltac:(repeat split; vm_compute; reflexivity)
                ltac:(vm_compute; reflexivity) ltac:(vm_compute; reflexivity)
                ltac:(vm_compute; reflexivity) ltac:(vm_compute; reflexivity)
                eq_refl
                ltac:(intros v [<- | []]; discriminate)
                ltac:(intros v [<- | []]; discriminate)
                ltac:(intros v [<- | []]; discriminate)
                ltac:(vm_compute; reflexivity) ltac:(discriminate))
      as (H1 & _ & _ & _ & H2 & _).
    split; [exact H2 | exact H1].
  - destruct (registration_creates_account Scenario.casting Sample.env_dev Sample.world
                Scenario.seven [Sample.ann_record] "7" "seven@example.org"
                "se7en" "s3cret"
                casting_hasher_contract
                ltac:(repeat split; vm_compute; reflexivity)
                ltac:(vm_compute; reflexivity) ltac:(vm_compute; reflexivity)
                ltac:(vm_compute; reflexivity) ltac:(vm_compute; reflexivity)
                eq_refl
                ltac:(intros v [<- | []]; discriminate)
                ltac:(intros v [<- | []]; discriminate)
                ltac:(intros v [<- | []]; discriminate)
                ltac:(vm_compute; reflexivity) ltac:(discriminate))
      as (H1 & _ & _ & _ & H2 & _).
    split; [exact H2 | exact H1].
Defined.

(** C2, as stated, fails on the code: a login with its email and password
    present, a stored document under the email and a password that checks
    against its digest is answered with 500, and gets no cookie and no
    token, when the signing secret is missing. *)
Lemma login_needs_signing_secret :
  let r := login Sample.lib Sample.env_no_secret Sample.world (Some Sample.ann)
             [Sample.ann_record] in
  truthy (field Sample.ann "email") = true
  /\ truthy (field Sample.ann "password") = true
  /\ query Sample.lib Sample.world [Sample.ann_record] (field Sample.ann "email")
     = Resolved (Some Sample.ann_record)
  /\ field Sample.ann "password" = JString "hunter2"
  /\ bcrypt_check Sample.lib "hunter2" (password Sample.ann_record) = true
  /\ statusCode (res r) = 500
  /\ statusCode (res r) <> 200
  /\ cookies (res r) = []
  /\ trace r = [CallFindOne (JString "ann@example.org");
                CallCompareSync (JString "hunter2") "$2a$hunter2";
                CallConsoleError "Login Error:"].
Proof.
  cbv zeta. repeat split; try (vm_compute; reflexivity).
  vm_compute. discriminate.
Qed.

(** C2, amended.  For every login whose email is present, whose password
    is a non-empty string, for which the lookup finds a stored document
    whose digest the password checks against, and with the signing secret
    set: the answer is 200; one cookie is set, the session cookie, whose
    token is signed with the secret for the [_id] of that document and
    expires 4 days after it was issued; the document is returned without
    its password field; the collection is left as it was. *)
Theorem login_issues_session lib env w body st u p key :
  truthy (field body "email") = true ->
  field body "password" = JString p -> p <> "" ->
  query lib w st (field body "email") = Resolved (Some u) ->
  bcrypt_check lib p (password u) = true ->
  env !! "JWT_SECRET" = Some key -> key <> "" ->
  let r := login lib env w (Some body) st in
  In u st
  /\ statusCode (res r) = 200
  /\ (exists c, cookies (res r) = [c] /\ session_cookie env c
        /\ jwt_id (ck_value c) = _id u
        /\ jwt_key (ck_value c) = key
        /\ jwt_iat (ck_value c) = clock_sign w / 1000
        /\ jwt_exp (ck_value c) = clock_sign w / 1000 + 345600)
  /\ (exists rest,
        sent (res r) = Some {| success := true; message := "Login Success";
                               user := Some rest |}
        /\ rest !! "password" = None
        /\ (forall k, k <> "password" -> rest !! k = _doc u !! k))
  /\ db r = st.
Proof.
  intros He P Hne Q C Hk Hkey. cbv zeta.
  assert (Hp : truthy (field body "password") = true).
  { rewrite P. cbn. apply String.eqb_neq in Hne. rewrite Hne. reflexivity. }
  rewrite (login_ok lib env w body st u p key He Hp Q P C Hk Hkey). cbn.
  split; [exact (query_resolved_in lib w st _ u Q)|].
  split; [reflexivity|]. split.
  - eexists. split; [reflexivity|]. split; [apply access_cookie_session|].
    repeat split; reflexivity.
  - split; [|reflexivity].
    eexists. split; [reflexivity|]. apply rest_has_no_password.
Qed.

Lemma login_issues_session_witness :
  statusCode (res (login Sample.lib Sample.env_dev Sample.world (Some Sample.ann)
                     [Sample.ann_record])) = 200
  /\ db (login Sample.lib Sample.env_dev Sample.world (Some Sample.ann) [Sample.ann_record])
     = [Sample.ann_record].
Proof.
  destruct (login_issues_session Sample.lib Sample.env_dev Sample.world Sample.ann
              [Sample.ann_record] Sample.ann_record "hunter2" "s3cret"
              ltac:(vm_compute; reflexivity) ltac:(vm_compute; reflexivity)
              ltac:(discriminate) ltac:(vm_compute; reflexivity)
              ltac:(vm_compute; reflexivity) ltac:(vm_compute; reflexivity)
              ltac:(discriminate))
    as (_ & H1 & _ & _ & H2).
  split; [exact H1 | exact H2].
Defined.

(* ===================================================================== *)
(** ** What every request gets *)
(* ===================================================================== *)

Lemma signup_completes lib env w req st :
  snd (run (signupController lib env w req) st) = Returned
  \/ snd (run (signupController lib env w req) st) = Normal tt.
Proof.
  destruct req as [body|]; [|left; reflexivity].
  unfold run, signupController, try_catch, destructure. rewrite bind_pure. cbn beta.
  destruct (presence_cases body) as [Ha | (Hu & He & Hp)].
  { rewrite (absent_test _ _ _ Ha). left. reflexivity. }
  rewrite (present_test _ _ _ Hu He Hp). run_flow.
  destruct (query lib w st (field body "email")) as [[u|]|e]; try (left; reflexivity).
  destruct (field body "password") as [| | | |p|]; try (left; reflexivity).
  cbn [db res trace].
  destruct (insertOne w st _) as [st' [u|e]]; cbn [fst snd]; try (left; reflexivity).
  destruct (env_truthy_cases env "JWT_SECRET") as [S | (key & S & Hk)].
  - rewrite S. left. reflexivity.
  - rewrite (secret_truthy env key S Hk), S.
    apply String.eqb_neq in Hk. rewrite Hk. right. reflexivity.
Qed.

Lemma login_completes lib env w req st :
  snd (run (loginController lib env w req) st) = Returned
  \/ snd (run (loginController lib env w req) st) = Normal tt.
Proof.
  destruct req as [body|]; [|left; reflexivity].
  unfold run, loginController, try_catch, destructure. rewrite bind_pure. cbn beta.
  destruct (truthy (field body "email")); [|left; reflexivity].
  destruct (truthy (field body "password")) eqn:Hp; [|left; reflexivity].
  cbn [negb orb]. run_flow.
  destruct (query lib w st (field body "email")) as [[u|]|e]; try (left; reflexivity).
  destruct (field body "password") as [| | | |p|]; try (left; reflexivity).
  cbn [db res trace].
  destruct (bcrypt_check lib p (User_password u)); cbn [negb]; [|left; reflexivity].
  destruct (env_truthy_cases env "JWT_SECRET") as [S | (key & S & Hk)].
  - rewrite S. left. reflexivity.
  - rewrite (secret_truthy env key S Hk), S.
    apply String.eqb_neq in Hk. rewrite Hk. right. reflexivity.
Qed.

(** X1.  Started on the fresh response that Express hands over, neither
    controller lets an exception out, whatever the request: whatever
    throws, throws before the response is sent, so the [catch] can still
    answer, and the controller ends by [return] or by reaching its end.
    Express never hands one of their errors to the error handler
    middleware.  The fresh response matters: on a response that was
    already sent, the answer of the [catch] throws in its turn. *)
Theorem controllers_never_throw lib env w req st :
  (forall e, snd (run (signupController lib env w req) st) <> Thrown e)
  /\ (forall e, snd (run (loginController lib env w req) st) <> Thrown e)
  /\ (forall s j, sent (res s) = Some j ->
        snd (signupController lib env w None s) = Thrown "ERR_HTTP_HEADERS_SENT"
        /\ snd (loginController lib env w None s) = Thrown "ERR_HTTP_HEADERS_SENT").
Proof.
  split; [|split].
  - intros e. destruct (signup_completes lib env w req st) as [-> | ->]; discriminate.
  - intros e. destruct (login_completes lib env w req st) as [-> | ->]; discriminate.
  - intros s j Hs.
    unfold signupController, loginController, try_catch, destructure, console_error,
      res_status, res_json, modify_res, log, throw, return_, bind.
    cbn. rewrite Hs. split; reflexivity.
Qed.

(** X2.  Every registration is answered: a JSON body is sent, the status
    is 201, 400, 409 or 500, [success] is true exactly on 201, a [user] is
    returned exactly on 201, and a returned user never has a [password]
    key. *)
Theorem signup_always_answers lib env w req st :
  let r := signup lib env w req st in
  exists j, sent (res r) = Some j
    /\ (statusCode (res r) = 201 \/ statusCode (res r) = 400
        \/ statusCode (res r) = 409 \/ statusCode (res r) = 500)
    /\ (success j = true <-> statusCode (res r) = 201)
    /\ (is_Some (user j) <-> statusCode (res r) = 201)
    /\ (forall rest, user j = Some rest -> rest !! "password" = None).
Proof.
  cbv zeta.
  destruct req as [body|];
    [on_signup_path lib env w body st | rewrite signup_no_body; unfold signup_unparsed];
    cbn; eexists; (split; [reflexivity|]); cbn.
  all: split; [tauto|].
  all: split; [split; intros; (discriminate || reflexivity)|].
  all: split;
    [split; [intros [? ?]; discriminate || reflexivity
            | intros; discriminate || eauto]|].
  all: intros rest E; try discriminate.
  injection E as <-. apply lookup_delete_eq.
Qed.

(** X3.  Every login is answered: a JSON body is sent, the status is 200,
    400, 401, 404 or 500, [success] is true exactly on 200, a [user] is
    returned exactly on 200, and a returned user never has a [password]
    key. *)
Theorem login_always_answers lib env w req st :
  let r := login lib env w req st in
  exists j, sent (res r) = Some j
    /\ (statusCode (res r) = 200 \/ statusCode (res r) = 400
        \/ statusCode (res r) = 401 \/ statusCode (res r) = 404
        \/ statusCode (res r) = 500)
    /\ (success j = true <-> statusCode (res r) = 200)
    /\ (is_Some (user j) <-> statusCode (res r) = 200)
    /\ (forall rest, user j = Some rest -> rest !! "password" = None).
Proof.
  cbv zeta.
  destruct req as [body|];
    [on_login_path lib env w body st | rewrite login_no_body; unfold login_unparsed];
    cbn; eexists; (split; [reflexivity|]); cbn.
  all: split; [tauto|].
  all: split; [split; intros; (discriminate || reflexivity)|].
  all: split;
    [split; [intros [? ?]; discriminate || reflexivity
            | intros; discriminate || eauto]|].
  all: intros rest E; try discriminate.
  injection E as <-. apply lookup_delete_eq.
Qed.

(** X4.  A request that is not answered with success leaves no session
    behind: when a registration is not answered with 201, or a login not
    with 200, no cookie is set and [jwt.sign] is not called.  No request
    sets more than one cookie. *)
Theorem no_session_without_success lib env w req st :
  (statusCode (res (signup lib env w req st)) <> 201 ->
     cookies (res (signup lib env w req st)) = []
     /\ forall id, ~ In (CallJwtSign id) (trace (signup lib env w req st)))
  /\ (statusCode (res (login lib env w req st)) <> 200 ->
      cookies (res (login lib env w req st)) = []
      /\ forall id, ~ In (CallJwtSign id) (trace (login lib env w req st)))
  /\ (length (cookies (res (signup lib env w req st))) <= 1)%nat
  /\ (length (cookies (res (login lib env w req st))) <= 1)%nat.
Proof.
  split; [|split; [|split]].
  - on_signup_request lib env w req st; cbn; intros N; try (exfalso; apply N; reflexivity).
    all: split; [reflexivity|]; intros id Hin;
      repeat (destruct Hin as [Hin | Hin]; [discriminate|]); exact Hin.
  - on_login_request lib env w req st; cbn; intros N; try (exfalso; apply N; reflexivity).
    all: split; [reflexivity|]; intros id Hin;
      repeat (destruct Hin as [Hin | Hin]; [discriminate|]); exact Hin.
  - on_signup_request lib env w req st; cbn; lia.
  - on_login_request lib env w req st; cbn; lia.
Qed.

Lemma no_session_without_success_witness :
  statusCode (res (signup Sample.lib Sample.env_dev Sample.world (Some Sample.ann)
                     [Sample.ann_record])) <> 201
  /\ cookies (res (signup Sample.lib Sample.env_dev Sample.world (Some Sample.ann)
                     [Sample.ann_record])) = []
  /\ statusCode (res (login Sample.lib Sample.env_dev Sample.world
                        (Some Sample.wrong_password) [Sample.ann_record])) <> 200
  /\ cookies (res (login Sample.lib Sample.env_dev Sample.world
                     (Some Sample.wrong_password) [Sample.ann_record])) = [].
Proof.
  assert (Hs : statusCode (res (signup Sample.lib Sample.env_dev Sample.world (Some Sample.ann)
                                  [Sample.ann_record])) <> 201)
    by (vm_compute; discriminate).
  assert (Hl : statusCode (res (login Sample.lib Sample.env_dev Sample.world
                                  (Some Sample.wrong_password) [Sample.ann_record])) <> 200)
    by (vm_compute; discriminate).
  split; [exact Hs|]. split.
  - destruct (no_session_without_success Sample.lib Sample.env_dev Sample.world
                (Some Sample.ann) [Sample.ann_record]) as (H & _).
    exact (proj1 (H Hs)).
  - split; [exact Hl|].
    destruct (no_session_without_success Sample.lib Sample.env_dev Sample.world
                (Some Sample.wrong_password) [Sample.ann_record]) as (_ & H & _).
    exact (proj1 (H Hl)).
Defined.

(** X5.  The [catch] branch and the status 500 go together: a controller
    writes its error line with [console.error] exactly when it answers
    with 500. *)
Theorem error_logged_exactly_on_500 lib env w req st :
  (In (CallConsoleError "Signup Error:") (trace (signup lib env w req st))
   <-> statusCode (res (signup lib env w req st)) = 500)
  /\ (In (CallConsoleError "Login Error:") (trace (login lib env w req st))
      <-> statusCode (res (login lib env w req st)) = 500).
Proof.
  split.
  - on_signup_request lib env w req st; cbn; split; intros Hin;
      try reflexivity; try discriminate; try tauto;
      repeat (destruct Hin as [Hin | Hin]; [discriminate|]); destruct Hin.
  - on_login_request lib env w req st; cbn; split; intros Hin;
      try reflexivity; try discriminate; try tauto;
      repeat (destruct Hin as [Hin | Hin]; [discriminate|]); destruct Hin.
Qed.

Lemma error_logged_exactly_on_500_witness :
  statusCode (res (signup Sample.lib Sample.env_no_secret Sample.world (Some Sample.ann) [])) = 500
  /\ In (CallConsoleError "Signup Error:")
        (trace (signup Sample.lib Sample.env_no_secret Sample.world (Some Sample.ann) []))
  /\ statusCode (res (login Sample.lib Sample.env_no_secret Sample.world (Some Sample.ann)
                        [Sample.ann_record])) = 500
  /\ In (CallConsoleError "Login Error:")
        (trace (login Sample.lib Sample.env_no_secret Sample.world (Some Sample.ann)
                  [Sample.ann_record])).
Proof.
  assert (Hs : statusCode (res (signup Sample.lib Sample.env_no_secret Sample.world
                                  (Some Sample.ann) [])) = 500) by (vm_compute; reflexivity).
  assert (Hl : statusCode (res (login Sample.lib Sample.env_no_secret Sample.world
                                  (Some Sample.ann) [Sample.ann_record])) = 500)
    by (vm_compute; reflexivity).
  destruct (error_logged_exactly_on_500 Sample.lib Sample.env_no_secret Sample.world
              (Some Sample.ann) []) as (H1 & _).
  destruct (error_logged_exactly_on_500 Sample.lib Sample.env_no_secret Sample.world
              (Some Sample.ann) [Sample.ann_record]) as (_ & H2).
  split; [exact Hs|]. split; [exact (proj2 H1 Hs)|].
  split; [exact Hl | exact (proj2 H2 Hl)].
Defined.

(* ===================================================================== *)
(** ** What reaches the collection *)
(* ===================================================================== *)

Lemma insert_writes_digest lib w st name mail p st' u :
  insertOne w st (new_User lib w name mail (bcrypt_hash lib p 10 (salt w)))
    = (st', Resolved u) ->
  castString lib name = Some (username u)
  /\ castString lib mail = Some (email u)
  /\ u = created w (username u) (email u) (bcrypt_hash lib p 10 (salt w))
  /\ username u <> "" /\ email u <> "" /\ password u <> ""
  /\ (forall v, In v st ->
        _id v <> _id u /\ username v <> username u /\ email v <> email u)
  /\ (hasher_contract lib ->
        password u <> p /\ bcrypt_check lib p (password u) = true).
Proof.
  intros I.
  destruct (insertOne_resolved _ _ _ _ _ _ _ _ I)
    as (Hn & He & Hu & Hne & Hee & Hd & _ & Hfree).
  assert (Hpw : password u = bcrypt_hash lib p 10 (salt w)) by (rewrite Hu; reflexivity).
  assert (Hid : _id u = new_id w) by (rewrite Hu; reflexivity).
  split; [exact Hn|]. split; [exact He|]. split; [exact Hu|].
  split; [exact Hne|]. split; [exact Hee|]. split; [rewrite Hpw; exact Hd|].
  split.
  - intros v Hv. rewrite Hid. exact (Hfree v Hv).
  - intros (Hc & Hp & _). rewrite Hpw. split; [apply Hp | apply Hc].
Qed.

(** X6.  Whenever a registration writes a document, whatever the answer
    (201, or 500 when the signing secret is missing), the password of the
    request is a string and the document holds its digest at cost 10, the
    cast user name and email (not empty), the generated [_id], and equal
    [createdAt] and [updatedAt]; no stored document has the same [_id],
    user name or email.  With the hasher's contract the stored password is
    not the plaintext and the plaintext checks against it. *)
Theorem written_document lib env w req st u :
  db (signup lib env w req st) = st ++ [u] ->
  exists body p,
    req = Some body
    /\ field body "password" = JString p
    /\ castString lib (field body "username") = Some (username u)
    /\ castString lib (field body "email") = Some (email u)
    /\ u = created w (username u) (email u) (bcrypt_hash lib p 10 (salt w))
    /\ username u <> "" /\ email u <> "" /\ password u <> ""
    /\ (forall v, In v st ->
          _id v <> _id u /\ username v <> username u /\ email v <> email u)
    /\ (hasher_contract lib ->
          password u <> p /\ bcrypt_check lib p (password u) = true).
Proof.
  on_signup_request lib env w req st; cbn; intros E;
    try (exfalso; exact (app_one_not_self st u (eq_sym E))).
  all: apply app_inv_head in E; injection E as ->.
  all: eexists; exists p; split; [reflexivity|]; split; [assumption|].
  all: eapply insert_writes_digest; eassumption.
Qed.

Lemma written_document_witness :
  statusCode (res (signup Sample.lib Sample.env_no_secret Sample.world (Some Sample.ann) [])) = 500
  /\ db (signup Sample.lib Sample.env_no_secret Sample.world (Some Sample.ann) [])
     = [] ++ [created Sample.world "ann" "ann@example.org" "$2a$hunter2"]
  /\ exists p, field Sample.ann "password" = JString p
       /\ password (created Sample.world "ann" "ann@example.org" "$2a$hunter2") <> p.
Proof.
  assert (E : db (signup Sample.lib Sample.env_no_secret Sample.world (Some Sample.ann) [])
              = [] ++ [created Sample.world "ann" "ann@example.org" "$2a$hunter2"])
    by (vm_compute; reflexivity).
  split; [vm_compute; reflexivity|]. split; [exact E|].
  destruct (written_document Sample.lib Sample.env_no_secret Sample.world (Some Sample.ann) []
              (created Sample.world "ann" "ann@example.org" "$2a$hunter2") E)
    as (body & p & Hb & Hp & _ & _ & _ & _ & _ & _ & _ & Hc).
  injection Hb as <-.
  exists p. split; [exact Hp|]. exact (proj1 (Hc sample_hasher_contract)).
Defined.

Lemma schema_holds_snoc st u :
  schema_holds st ->
  username u <> "" -> email u <> "" -> password u <> "" ->
  (forall v, In v st ->
     _id v <> _id u /\ username v <> username u /\ email v <> email u) ->
  schema_holds (st ++ [u]).
Proof.
  intros (Hi & Hn & He & Hr) Hun Hue Hup Hfree. unfold schema_holds.
  rewrite !map_app. cbn [map].
  assert (Hnot : forall (f : User -> string),
            (forall v, In v st -> f v <> f u) -> ~ In (f u) (map f st)).
  { intros f Hf Hin. apply in_map_iff in Hin as (v & Hv & Hin). exact (Hf v Hin Hv). }
  split; [apply NoDup_snoc; [exact Hi | apply Hnot; intros v Hv; apply (Hfree v Hv)]|].
  split; [apply NoDup_snoc; [exact Hn | apply Hnot; intros v Hv; apply (Hfree v Hv)]|].
  split; [apply NoDup_snoc; [exact He | apply Hnot; intros v Hv; apply (Hfree v Hv)]|].
  intros v Hv. apply in_app_iff in Hv as [Hv | [<- | []]]; [exact (Hr v Hv) | auto].
Qed.

(** X7.  The controllers keep what [userSchema] asks of the collection:
    if the [_id]s, the user names and the emails are pairwise different
    and no document has an empty user name, email or password, the same
    holds after any registration and after any login. *)
Theorem schema_is_kept lib env w req st :
  schema_holds st ->
  schema_holds (db (signup lib env w req st))
  /\ schema_holds (db (login lib env w req st)).
Proof.
  intros Hs. split.
  - on_signup_request lib env w req st; cbn; try exact Hs.
    all: match goal with
         | I : insertOne _ _ _ = _ |- _ =>
             destruct (insert_writes_digest _ _ _ _ _ _ _ _ I)
               as (_ & _ & _ & Hn & He & Hp & Hfree & _)
         end; apply schema_holds_snoc; assumption.
  - on_login_request lib env w req st; cbn; exact Hs.
Qed.

Lemma schema_is_kept_witness :
  schema_holds [Sample.ann_record]
  /\ db (signup Sample.lib Sample.env_dev Sample.world (Some Scenario.bob) [Sample.ann_record])
     = [Sample.ann_record; Scenario.bob_record]
  /\ schema_holds [Sample.ann_record; Scenario.bob_record].
Proof.
  assert (Hs : schema_holds [Sample.ann_record]).
  { unfold schema_holds. cbn.
    repeat split; try (constructor; [intros [] | constructor]).
    all: destruct H as [<- | []]; discriminate. }
  assert (E : db (signup Sample.lib Sample.env_dev Sample.world (Some Scenario.bob)
                    [Sample.ann_record]) = [Sample.ann_record; Scenario.bob_record])
    by (vm_compute; reflexivity).
  split; [exact Hs|]. split; [exact E|].
  rewrite <- E.
  exact (proj1 (schema_is_kept Sample.lib Sample.env_dev Sample.world (Some Scenario.bob)
                  [Sample.ann_record] Hs)).
Defined.

(* ===================================================================== *)
(** ** Registration and login together *)
(* ===================================================================== *)

(** A registration that wrote its document, read backwards for an email
    that is a string. *)
Lemma signup_wrote lib env w body st em :
  db (signup lib env w (Some body) st) <> st ->
  field body "email" = JString em ->
  exists p u,
    db (signup lib env w (Some body) st) = st ++ [u]
    /\ field body "password" = JString p /\ p <> ""
    /\ u = created w (username u) em (bcrypt_hash lib p 10 (salt w))
    /\ em <> ""
    /\ List.find (fun v => String.eqb em (email v)) st = None.
Proof.
  intros Hw Ee. revert Hw.
  on_signup_path lib env w body st; cbn; intros Hw; try (exfalso; apply Hw; reflexivity).
  all: exists p, u.
  all: match goal with
       | I : insertOne _ _ _ = _ |- _ =>
           destruct (insert_writes_digest _ _ _ _ _ _ _ _ I)
             as (_ & He & Hu & _ & Hne & _)
       end.
  all: match goal with Q : query _ _ _ _ = Resolved None |- _ =>
         rewrite Ee in Q; apply query_string_resolved in Q as [_ Q] end.
  all: rewrite Ee in He; cbn in He; injection He as He.
  all: match goal with Hp : all_present _, P : field _ "password" = JString _ |- _ =>
         destruct Hp as (_ & _ & Hp); rewrite P in Hp; cbn in Hp;
         apply negb_true_iff, String.eqb_neq in Hp end.
  all: repeat split; try assumption; try reflexivity; try congruence.
Qed.

(** X8.  Once a registration has written its document (answered 201, or
    500 for a missing signing secret), a login with the same email and
    password succeeds against the resulting collection, whenever the
    database answers and the signing secret is set: it is answered with
    200 and its token is for the [_id] that the registration generated.
    This rests on one promise of bcryptjs: a plaintext checks against its
    own digest. *)
Theorem registered_user_can_log_in lib env w body st env' w' body' em :
  (forall p r s, bcrypt_check lib p (bcrypt_hash lib p r s) = true) ->
  db (signup lib env w (Some body) st) <> st ->
  field body "email" = JString em ->
  field body' "email" = JString em ->
  field body' "password" = field body "password" ->
  findOne_rejects w' = false ->
  env_truthy env' "JWT_SECRET" = true ->
  let r' := login lib env' w' (Some body') (db (signup lib env w (Some body) st)) in
  statusCode (res r') = 200
  /\ db r' = db (signup lib env w (Some body) st)
  /\ exists c, cookies (res r') = [c] /\ jwt_id (ck_value c) = new_id w.
Proof.
  intros Hc Hw Ee Ee' Ep' Hf Hs. cbv zeta.
  destruct (signup_wrote lib env w body st em Hw Ee)
    as (p & u & -> & Ep & Hp & Hu & Hem & Hfind).
  assert (Hmail : email u = em) by (rewrite Hu; reflexivity).
  assert (Hpw : password u = bcrypt_hash lib p 10 (salt w)) by (rewrite Hu; reflexivity).
  assert (Hid : _id u = new_id w) by (rewrite Hu; reflexivity).
  assert (He' : truthy (field body' "email") = true).
  { rewrite Ee'. cbn. apply String.eqb_neq in Hem. by rewrite Hem. }
  assert (Hp' : truthy (field body' "password") = true).
  { rewrite Ep', Ep. cbn. apply String.eqb_neq in Hp. by rewrite Hp. }
  assert (Q : query lib w' (st ++ [u]) (field body' "email") = Resolved (Some u)).
  { rewrite Ee', (query_string lib w' _ em Hf), (find_app_new st em u Hfind Hmail).
    reflexivity. }
  assert (C : bcrypt_check lib p (password u) = true) by (rewrite Hpw; apply Hc).
  destruct (env_truthy_cases env' "JWT_SECRET") as [S | (key & S & Hk)]; [congruence|].
  rewrite (login_ok lib env' w' body' (st ++ [u]) u p key He' Hp' Q
             (eq_trans Ep' Ep) C S Hk).
  cbn. split; [reflexivity|]. split; [reflexivity|].
  eexists. split; [reflexivity|]. exact Hid.
Qed.

Lemma registered_user_can_log_in_witness :
  statusCode (res (signup Sample.lib Sample.env_no_secret Sample.world (Some Scenario.bob)
                     [Sample.ann_record])) = 500
  /\ statusCode (res (login Sample.lib Sample.env_dev Scenario.later (Some Scenario.bob)
                        (db (signup Sample.lib Sample.env_no_secret Sample.world
                               (Some Scenario.bob) [Sample.ann_record])))) = 200.
Proof.
  split; [vm_compute; reflexivity|].
  apply (registered_user_can_log_in Sample.lib Sample.env_no_secret Sample.world
           Scenario.bob [Sample.ann_record] Sample.env_dev Scenario.later Scenario.bob
           "bob@example.org"
           (proj1 sample_hasher_contract)
           ltac:(vm_compute; discriminate) ltac:(vm_compute; reflexivity)
           ltac:(vm_compute; reflexivity) eq_refl eq_refl
           ltac:(vm_compute; reflexivity)).
Defined.

(** X9.  Once a registration has written its document, however it was
    answered, a later registration under the same email is refused with
    409 when the database answers, and writes nothing.  In particular a
    registration answered with 500 for a missing signing secret cannot be
    repeated: the retry meets the account it left behind. *)
Theorem registered_email_is_refused lib env w body st env' w' body' em :
  db (signup lib env w (Some body) st) <> st ->
  field body "email" = JString em ->
  all_present body' ->
  field body' "email" = JString em ->
  findOne_rejects w' = false ->
  let r' := signup lib env' w' (Some body') (db (signup lib env w (Some body) st)) in
  statusCode (res r') = 409
  /\ db r' = db (signup lib env w (Some body) st)
  /\ cookies (res r') = [].
Proof.
  intros Hw Ee Hp' Ee' Hf. cbv zeta.
  destruct (signup_wrote lib env w body st em Hw Ee)
    as (p & u & -> & Ep & Hp & Hu & Hem & Hfind).
  assert (Hmail : email u = em) by (rewrite Hu; reflexivity).
  assert (Q : query lib w' (st ++ [u]) (field body' "email") = Resolved (Some u)).
  { rewrite Ee', (query_string lib w' _ em Hf), (find_app_new st em u Hfind Hmail).
    reflexivity. }
  rewrite (signup_duplicate lib env' w' body' (st ++ [u]) u Hp' Q).
  cbn. tauto.
Qed.

Lemma registered_email_is_refused_witness :
  statusCode (res (signup Sample.lib Sample.env_no_secret Sample.world (Some Scenario.bob)
                     [Sample.ann_record])) = 500
  /\ statusCode (res (signup Sample.lib Sample.env_dev Scenario.later (Some Scenario.bob)
                        (db (signup Sample.lib Sample.env_no_secret Sample.world
                               (Some Scenario.bob) [Sample.ann_record])))) = 409.
Proof.
  split; [vm_compute; reflexivity|].
  apply (registered_email_is_refused Sample.lib Sample.env_no_secret Sample.world
           Scenario.bob [Sample.ann_record] Sample.env_dev Scenario.later Scenario.bob
           "bob@example.org"
           ltac:(vm_compute; discriminate) ltac:(vm_compute; reflexivity)
           ltac:(repeat split; vm_compute; reflexivity)
           ltac:(vm_compute; reflexivity) eq_refl).
Defined.

Lemma query_string_found lib w st e u :
  query lib w st (JString e) = Resolved (Some u) -> email u = e.
Proof.
  intros Q. apply query_string_resolved in Q as [_ Q].
  symmetry in Q. apply List.find_some in Q as [_ Q].
  apply String.eqb_eq in Q. congruence.
Qed.

(** X10.  A login is answered with 200 only when it was earned: the lookup
    found a stored document, the password is a string that checks against
    the digest of that document, and the signing secret is set; when the
    email is a string, it is the email of that document.  A login answered
    with 401 also met a stored document.  So against an empty collection
    a login is answered with 400, 404 or 500. *)
Theorem login_success_is_earned lib env w req st :
  (statusCode (res (login lib env w req st)) = 200 ->
     exists body u p key,
       req = Some body
       /\ In u st
       /\ query lib w st (field body "email") = Resolved (Some u)
       /\ field body "password" = JString p
       /\ bcrypt_check lib p (password u) = true
       /\ env !! "JWT_SECRET" = Some key /\ key <> ""
       /\ (forall em, field body "email" = JString em -> email u = em))
  /\ (statusCode (res (login lib env w req st)) = 401 ->
      exists body u p,
        req = Some body
        /\ In u st /\ field body "password" = JString p
        /\ bcrypt_check lib p (password u) = false)
  /\ (st = [] ->
      statusCode (res (login lib env w req st)) = 400
      \/ statusCode (res (login lib env w req st)) = 404
      \/ statusCode (res (login lib env w req st)) = 500).
Proof.
  split; [|split].
  - on_login_request lib env w req st; cbn; intros E; try discriminate.
    eexists. exists u, p, key. split; [reflexivity|].
    repeat split; try assumption.
    + eapply query_resolved_in; eassumption.
    + intros em Em.
      match goal with Q : query _ _ _ _ = _ |- _ =>
        rewrite Em in Q; exact (query_string_found _ _ _ _ _ Q) end.
  - on_login_request lib env w req st; cbn; intros E; try discriminate.
    eexists. exists u, p. split; [reflexivity|]. repeat split; try assumption.
    eapply query_resolved_in; eassumption.
  - intros ->.
    on_login_request lib env w req (@nil User); cbn; try tauto.
    all: match goal with Q : query _ _ [] _ = Resolved (Some _) |- _ =>
           destruct (query_resolved_in _ _ _ _ _ Q) end.
Qed.

Lemma login_success_is_earned_witness :
  statusCode (res (login Sample.lib Sample.env_dev Sample.world (Some Sample.ann)
                     [Sample.ann_record])) = 200
  /\ (exists u, In u [Sample.ann_record] /\ email u = "ann@example.org")
  /\ statusCode (res (login Sample.lib Sample.env_dev Sample.world
                        (Some Sample.wrong_password) [Sample.ann_record])) = 401
  /\ (statusCode (res (login Sample.lib Sample.env_dev Sample.world (Some Sample.ann) [])) = 400
      \/ statusCode (res (login Sample.lib Sample.env_dev Sample.world (Some Sample.ann) [])) = 404
      \/ statusCode (res (login Sample.lib Sample.env_dev Sample.world (Some Sample.ann) [])) = 500).
Proof.
  assert (H200 : statusCode (res (login Sample.lib Sample.env_dev Sample.world (Some Sample.ann)
                                    [Sample.ann_record])) = 200)
    by (vm_compute; reflexivity).
  assert (H401 : statusCode (res (login Sample.lib Sample.env_dev Sample.world
                                    (Some Sample.wrong_password) [Sample.ann_record])) = 401)
    by (vm_compute; reflexivity).
  split; [exact H200|]. split.
  - destruct (login_success_is_earned Sample.lib Sample.env_dev Sample.world (Some Sample.ann)
                [Sample.ann_record]) as (H & _).
    destruct (H H200) as (body & u & p & key & Hb & Hu & _ & _ & _ & _ & _ & He).
    injection Hb as <-.
    exists u. split; [exact Hu|]. apply He. vm_compute. reflexivity.
  - split; [exact H401|].
    destruct (login_success_is_earned Sample.lib Sample.env_dev Sample.world (Some Sample.ann) [])
      as (_ & _ & H).
    exact (H eq_refl).
Defined.

(** X11.  A token is only ever issued for a stored document and with the
    configured secret: every cookie a controller sets carries a token
    whose [id] is the [_id] of a document of the collection as the request
    leaves it, signed with the non-empty [JWT_SECRET] of the
    environment. *)
Theorem token_names_a_stored_document lib env w req st :
  (forall c, In c (cookies (res (signup lib env w req st))) ->
     (exists u, In u (db (signup lib env w req st)) /\ jwt_id (ck_value c) = _id u)
     /\ env !! "JWT_SECRET" = Some (jwt_key (ck_value c))
     /\ jwt_key (ck_value c) <> "")
  /\ (forall c, In c (cookies (res (login lib env w req st))) ->
      (exists u, In u (db (login lib env w req st)) /\ jwt_id (ck_value c) = _id u)
      /\ env !! "JWT_SECRET" = Some (jwt_key (ck_value c))
      /\ jwt_key (ck_value c) <> "").
Proof.
  split.
  - on_signup_request lib env w req st; cbn; intros c Hc; try (exfalso; exact Hc).
    destruct Hc as [<- | []]. cbn. split; [|split; assumption].
    exists u. split; [|reflexivity]. apply in_or_app. right. by left.
  - on_login_request lib env w req st; cbn; intros c Hc; try (exfalso; exact Hc).
    destruct Hc as [<- | []]. cbn. split; [|split; assumption].
    exists u. split; [|reflexivity]. eapply query_resolved_in; eassumption.
Qed.

Lemma token_names_a_stored_document_witness :
  exists c u,
    In c (cookies (res (signup Sample.lib Sample.env_dev Sample.world (Some Scenario.bob)
                          [Sample.ann_record])))
    /\ In u (db (signup Sample.lib Sample.env_dev Sample.world (Some Scenario.bob)
                   [Sample.ann_record]))
    /\ jwt_id (ck_value c) = _id u
    /\ jwt_key (ck_value c) = "s3cret".
Proof.
  set (c := access_cookie Sample.env_dev (token_for Sample.world "65f0a1" "s3cret")).
  assert (Hc : In c (cookies (res (signup Sample.lib Sample.env_dev Sample.world
                                     (Some Scenario.bob) [Sample.ann_record]))))
    by (left; vm_compute; reflexivity).
  destruct (token_names_a_stored_document Sample.lib Sample.env_dev Sample.world
              (Some Scenario.bob) [Sample.ann_record]) as (H & _).
  destruct (H c Hc) as ((u & Hu & Hid) & _ & _).
  exists c, u. repeat split; assumption || reflexivity.
Defined.

(** X12.  The controllers read three keys of the body and nothing else:
    setting any other key (a [role], an [_id], a [createdAt]) changes
    neither the answer, nor the document written, nor the calls made.
    The login reads two, and a [username] in its body is ignored too. *)
Theorem unknown_fields_are_ignored lib env w body st k v :
  (k <> "username" -> k <> "email" -> k <> "password" ->
     signup lib env w (Some (<[k := v]> body)) st = signup lib env w (Some body) st)
  /\ (k <> "email" -> k <> "password" ->
      login lib env w (Some (<[k := v]> body)) st = login lib env w (Some body) st).
Proof.
  split.
  - intros Hu He Hp. unfold signup, handle, run, signupController, destructure.
    rewrite !bind_pure. cbn beta. unfold field.
    rewrite !lookup_insert_ne by congruence. reflexivity.
  - intros He Hp. unfold login, handle, run, loginController, destructure.
    rewrite !bind_pure. cbn beta. unfold field.
    rewrite !lookup_insert_ne by congruence. reflexivity.
Qed.

Lemma unknown_fields_are_ignored_witness :
  signup Sample.lib Sample.env_dev Sample.world
    (Some (<["role" := JString "admin"]> Scenario.bob)) [Sample.ann_record]
  = signup Sample.lib Sample.env_dev Sample.world (Some Scenario.bob) [Sample.ann_record]
  /\ login Sample.lib Sample.env_dev Sample.world
       (Some (<["username" := JString "mallory"]> Sample.ann)) [Sample.ann_record]
     = login Sample.lib Sample.env_dev Sample.world (Some Sample.ann) [Sample.ann_record].
Proof.
  split.
  - apply (proj1 (unknown_fields_are_ignored Sample.lib Sample.env_dev Sample.world
                    Scenario.bob [Sample.ann_record] "role" (JString "admin")));
      discriminate.
  - apply (proj2 (unknown_fields_are_ignored Sample.lib Sample.env_dev Sample.world
                    Sample.ann [Sample.ann_record] "username" (JString "mallory")));
      discriminate.
Defined.

(* ===================================================================== *)
(** ** Exact conditions of the rejections *)
(* ===================================================================== *)

Lemma absent_not_present body : some_absent body -> all_present body -> False.
Proof. intros [H | [H | H]] (A & B & C); congruence. Qed.

Ltac clash :=
  first
    [ discriminate
    | reflexivity
    | assumption
    | exfalso; eapply absent_not_present; eassumption
    | congruence
    | tauto ].

(** The conditions of the rejections of a request with a parsed body. *)
Lemma parsed_rejections_exact lib env w body st :
  (statusCode (res (signup lib env w (Some body) st)) = 400 <-> some_absent body)
  /\ (statusCode (res (signup lib env w (Some body) st)) = 409
      <-> all_present body
          /\ exists u, query lib w st (field body "email") = Resolved (Some u))
  /\ (statusCode (res (login lib env w (Some body) st)) = 400
      <-> truthy (field body "email") = false \/ truthy (field body "password") = false)
  /\ (statusCode (res (login lib env w (Some body) st)) = 404
      <-> truthy (field body "email") = true /\ truthy (field body "password") = true
          /\ query lib w st (field body "email") = Resolved None)
  /\ (statusCode (res (login lib env w (Some body) st)) = 401
      <-> truthy (field body "email") = true /\ truthy (field body "password") = true
          /\ exists u p,
               query lib w st (field body "email") = Resolved (Some u)
               /\ field body "password" = JString p
               /\ bcrypt_check lib p (password u) = false).
Proof.
  split; [|split; [|split; [|split]]].
  - on_signup_path lib env w body st; cbn; split; intros G; try clash.
  - on_signup_path lib env w body st; cbn; split; intros G; try clash.
    all: try (destruct G as (G1 & u' & G2); clash).
    all: try (split; [assumption | eauto]).
  - on_login_path lib env w body st; cbn; split; intros G; try clash.
    all: destruct G; congruence.
  - on_login_path lib env w body st; cbn; split; intros G; try clash.
    all: try (destruct G as (G1 & G2 & G3); clash).
    all: match goal with D : _ \/ _ |- _ => destruct D end;
      destruct G as (G1 & G2 & G3); congruence.
  - on_login_path lib env w body st; cbn; split; intros G; try clash.
    all: try (destruct G as (G1 & G2 & u' & p' & G3 & G4 & G5)).
    all: try (match goal with D : _ \/ _ |- _ => destruct D end; congruence).
    all: try congruence.
    all: try match goal with
             | NS : forall q, _ <> JString q, E : _ = JString _ |- _ =>
                 exfalso; exact (NS _ E)
             end.
    all: try (split; [assumption|]; split; [assumption|]; eauto 10).
    all: assert (u' = u) as -> by congruence;
      assert (p' = p) as -> by congruence; congruence.
Qed.

(** X13.  The rejections are exact, not only sufficient.  A registration
    is answered with 400 exactly when a body object was parsed and a field
    of it fails the presence test, and with 409 exactly when a body object
    was parsed, its three fields are present and the lookup found a
    document.  A login is answered with 400 exactly when a body object was
    parsed and its email or its password fails the presence test, with 404
    exactly when both are present and the lookup found nothing, and with
    401 exactly when both are present, the lookup found a document and the
    password is a string that does not check against its digest.  A
    request without a parsed body gets none of these: it is answered with
    500. *)
Theorem rejections_are_exact lib env w req st :
  (statusCode (res (signup lib env w req st)) = 400
   <-> exists body, req = Some body /\ some_absent body)
  /\ (statusCode (res (signup lib env w req st)) = 409
      <-> exists body, req = Some body /\ all_present body
            /\ exists u, query lib w st (field body "email") = Resolved (Some u))
  /\ (statusCode (res (login lib env w req st)) = 400
      <-> exists body, req = Some body
            /\ (truthy (field body "email") = false
                \/ truthy (field body "password") = false))
  /\ (statusCode (res (login lib env w req st)) = 404
      <-> exists body, req = Some body
            /\ truthy (field body "email") = true
            /\ truthy (field body "password") = true
            /\ query lib w st (field body "email") = Resolved None)
  /\ (statusCode (res (login lib env w req st)) = 401
      <-> exists body, req = Some body
            /\ truthy (field body "email") = true
            /\ truthy (field body "password") = true
            /\ exists u p,
                 query lib w st (field body "email") = Resolved (Some u)
                 /\ field body "password" = JString p
                 /\ bcrypt_check lib p (password u) = false)
  /\ (req = None ->
      statusCode (res (signup lib env w req st)) = 500
      /\ statusCode (res (login lib env w req st)) = 500).
Proof.
  destruct req as [body|].
  - destruct (parsed_rejections_exact lib env w body st) as (H1 & H2 & H3 & H4 & H5).
    repeat split; try discriminate.
    all: try (intros E;
              first [ apply H1 in E | apply H2 in E | apply H3 in E
                    | apply H4 in E | apply H5 in E ];
              exists body; split; [reflexivity | exact E]).
    all: intros (b & Eb & E); injection Eb as <-.
    + apply H1. exact E.
    + apply H2. exact E.
    + apply H3. exact E.
    + apply H4. exact E.
    + apply H5. exact E.
  - repeat split; try reflexivity; try (intros E; discriminate E).
    all: intros (b & Eb & _); discriminate Eb.
Qed.

Lemma rejections_are_exact_witness :
  statusCode (res (signup Sample.lib Sample.env_dev Sample.world (Some Sample.ann)
                     [Sample.ann_record])) = 409
  /\ (exists body, Some Sample.ann = Some body /\ all_present body)
  /\ statusCode (res (login Sample.lib Sample.env_dev Sample.world
                        (Some Sample.unknown_email) [Sample.ann_record])) = 404
  /\ statusCode (res (signup Sample.lib Sample.env_dev Sample.world None
                        [Sample.ann_record])) = 500.
Proof.
  assert (H409 : statusCode (res (signup Sample.lib Sample.env_dev Sample.world
                                    (Some Sample.ann) [Sample.ann_record])) = 409)
    by (vm_compute; reflexivity).
  destruct (rejections_are_exact Sample.lib Sample.env_dev Sample.world (Some Sample.ann)
              [Sample.ann_record]) as (_ & H & _).
  destruct (proj1 H H409) as (body & Hb & Hp & _).
  destruct (rejections_are_exact Sample.lib Sample.env_dev Sample.world
              (Some Sample.unknown_email) [Sample.ann_record]) as (_ & _ & _ & H' & _).
  destruct (rejections_are_exact Sample.lib Sample.env_dev Sample.world None
              [Sample.ann_record]) as (_ & _ & _ & _ & _ & H'').
  split; [exact H409|]. split; [exists body; split; assumption|].
  split.
  - apply (proj2 H'). eexists. split; [reflexivity|].
    repeat split; vm_compute; reflexivity.
  - exact (proj1 (H'' eq_refl)).
Defined.

(* ===================================================================== *)
(** ** What is read of the environment *)
(* ===================================================================== *)

Lemma env_truthy_same (env env' : gmap string string) k :
  env' !! k = env !! k -> env_truthy env' k = env_truthy env k.
Proof. intros H. unfold env_truthy. by rewrite H. Qed.

(** Rewrite the registration under [env'] along the path that the
    hypotheses in the context describe. *)
Ltac same_signup_path lib env' w body st :=
  first
    [ rewrite (signup_missing lib env' w body st) by assumption
    | erewrite (signup_lookup_thrown lib env' w body st) by eassumption
    | erewrite (signup_duplicate lib env' w body st) by eassumption
    | rewrite (signup_hash_thrown lib env' w body st) by assumption
    | erewrite (signup_insert_thrown lib env' w body st) by eassumption
    | erewrite (signup_no_secret lib env' w body st) by eassumption
    | erewrite (signup_created lib env' w body st) by eassumption ].

Ltac same_login_path lib env' w body st :=
  first
    [ rewrite (login_missing lib env' w body st) by assumption
    | erewrite (login_lookup_thrown lib env' w body st) by eassumption
    | rewrite (login_not_found lib env' w body st) by assumption
    | erewrite (login_compare_thrown lib env' w body st) by eassumption
    | erewrite (login_bad_password lib env' w body st) by eassumption
    | erewrite (login_no_secret lib env' w body st) by eassumption
    | erewrite (login_ok lib env' w body st) by eassumption ].

Ltac move_secret env env' Hk :=
  repeat match goal with
         | S : env_truthy env "JWT_SECRET" = _ |- _ =>
             rewrite <- (env_truthy_same env env' "JWT_SECRET" Hk) in S
         | S : env !! "JWT_SECRET" = _ |- _ => rewrite <- Hk in S
         end.

(** X14.  Of [process.env] a request reads [JWT_SECRET] and [NODE_ENV]
    only, and [NODE_ENV] only for the [secure] attribute of the cookie:
    under two environments with the same [JWT_SECRET] a request leaves the
    same collection, makes the same calls, gets the same status and body
    and the same token; under two that also agree on [NODE_ENV] it ends in
    the same state. *)
Theorem environment_read lib env env' w req st :
  env' !! "JWT_SECRET" = env !! "JWT_SECRET" ->
  (let r := signup lib env w req st in
   let r' := signup lib env' w req st in
   db r' = db r /\ trace r' = trace r
   /\ statusCode (res r') = statusCode (res r) /\ sent (res r') = sent (res r)
   /\ map ck_value (cookies (res r')) = map ck_value (cookies (res r))
   /\ (env' !! "NODE_ENV" = env !! "NODE_ENV" -> r' = r))
  /\ (let r := login lib env w req st in
      let r' := login lib env' w req st in
      db r' = db r /\ trace r' = trace r
      /\ statusCode (res r') = statusCode (res r) /\ sent (res r') = sent (res r)
      /\ map ck_value (cookies (res r')) = map ck_value (cookies (res r))
      /\ (env' !! "NODE_ENV" = env !! "NODE_ENV" -> r' = r)).
Proof.
  intros Hk. cbv zeta. split.
  - destruct req as [body|]; [|repeat split; reflexivity].
    on_signup_path lib env w body st; move_secret env env' Hk;
      same_signup_path lib env' w body st; cbn;
      repeat (split; [reflexivity|]); intros Hn;
      unfold access_cookie; rewrite ?Hn; reflexivity.
  - destruct req as [body|]; [|repeat split; reflexivity].
    on_login_path lib env w body st; move_secret env env' Hk;
      same_login_path lib env' w body st; cbn;
      repeat (split; [reflexivity|]); intros Hn;
      unfold access_cookie; rewrite ?Hn; reflexivity.
Qed.

Lemma environment_read_witness :
  statusCode (res (signup Sample.lib Sample.env_prod Sample.world (Some Scenario.bob)
                     [Sample.ann_record]))
  = statusCode (res (signup Sample.lib Sample.env_dev Sample.world (Some Scenario.bob)
                       [Sample.ann_record]))
  /\ map ck_value (cookies (res (signup Sample.lib Sample.env_prod Sample.world
                                   (Some Scenario.bob) [Sample.ann_record])))
     = map ck_value (cookies (res (signup Sample.lib Sample.env_dev Sample.world
                                     (Some Scenario.bob) [Sample.ann_record])))
  /\ map ck_secure (cookies (res (signup Sample.lib Sample.env_prod Sample.world
                                    (Some Scenario.bob) [Sample.ann_record]))) = [true]
  /\ map ck_secure (cookies (res (signup Sample.lib Sample.env_dev Sample.world
                                    (Some Scenario.bob) [Sample.ann_record]))) = [false].
Proof.
  destruct (environment_read Sample.lib Sample.env_dev Sample.env_prod Sample.world
              (Some Scenario.bob) [Sample.ann_record] ltac:(vm_compute; reflexivity))
    as ((_ & _ & H1 & _ & H2 & _) & _).
  split; [exact H1|]. split; [exact H2|]. split; vm_compute; reflexivity.
Defined.

(* ===================================================================== *)
(** ** Startup, configuration and the error handler *)
(* ===================================================================== *)

(** X15.  The server listens only once the database connection stands:
    the process listens exactly when [MONGO_URI] is set and not empty, the
    connection succeeds and [app.listen] binds the server; whenever it
    exits, it exits with code 1; it exits whenever [MONGO_URI] is missing,
    the connection fails, the port is in use or [app.listen] throws; and
    it stays up without listening exactly when, connected, the server
    emits an error other than [EADDRINUSE]. *)
Theorem server_listens_only_when_connected env connect_ok listen :
  (startup env connect_ok listen = Listening
   <-> env_truthy env "MONGO_URI" = true /\ connect_ok = true /\ listen = Bound)
  /\ (forall code, startup env connect_ok listen = Exited code -> code = 1)
  /\ (startup env connect_ok listen = Idle
      <-> env_truthy env "MONGO_URI" = true /\ connect_ok = true
          /\ exists c, listen = Emits c /\ c <> "EADDRINUSE")
  /\ (env_truthy env "MONGO_URI" = false \/ connect_ok = false
      \/ listen = Emits "EADDRINUSE" \/ listen = Throws ->
      startup env connect_ok listen = Exited 1).
Proof.
  unfold startup, connectDB, startServer.
  destruct (env_truthy env "MONGO_URI"), connect_ok, listen as [|c|]; cbn;
    try (destruct (String.eqb c "EADDRINUSE") eqn:E;
         [apply String.eqb_eq in E | apply String.eqb_neq in E]).
  all: repeat split; try intros; try discriminate; try congruence; try tauto.
  all: try (repeat match goal with
                   | G : _ /\ _ |- _ => destruct G
                   | G : exists _, _ |- _ => destruct G
                   | G : _ \/ _ |- _ => destruct G
                   end; congruence).
  all: eauto.
Qed.

Lemma server_listens_only_when_connected_witness :
  startup Sample.env_dev true Bound = Listening
  /\ env_truthy Sample.env_dev "MONGO_URI" = true
  /\ startup Sample.env_dev false Bound = Exited 1
  /\ startup Sample.env_dev true (Emits "EACCES") = Idle
  /\ startup Sample.env_dev true Throws = Exited 1.
Proof.
  assert (Hm : env_truthy Sample.env_dev "MONGO_URI" = true) by (vm_compute; reflexivity).
  destruct (server_listens_only_when_connected Sample.env_dev true Bound) as (H1 & _).
  destruct (server_listens_only_when_connected Sample.env_dev false Bound)
    as (_ & _ & _ & H2).
  destruct (server_listens_only_when_connected Sample.env_dev true (Emits "EACCES"))
    as (_ & _ & H3 & _).
  destruct (server_listens_only_when_connected Sample.env_dev true Throws)
    as (_ & _ & _ & H4).
  split; [apply (proj2 H1); auto|]. split; [exact Hm|].
  split; [apply H2; right; left; reflexivity|].
  split.
  - apply (proj2 H3). split; [exact Hm|]. split; [reflexivity|].
    exists "EACCES". split; [reflexivity | discriminate].
  - apply H4. right. right. right. reflexivity.
Defined.

(** X16.  The configuration never ends up empty: [PORT] is truthy and the
    allowed origin is a non-empty string with credentials enabled,
    whatever the environment.  A variable that is set to the empty string
    counts as unset and yields the default (8080,
    [http://localhost:5173]); one that is set and not empty is used as it
    is. *)
Theorem configuration_defaults env :
  truthy (PORT env) = true
  /\ origin (cors_options env) <> ""
  /\ credentials (cors_options env) = true
  /\ (env_truthy env "PORT" = false -> PORT env = JNumber 8080)
  /\ (env_truthy env "CLIENT_URL" = false ->
      origin (cors_options env) = "http://localhost:5173")
  /\ (forall s, env !! "PORT" = Some s -> s <> "" -> PORT env = JString s)
  /\ (forall s, env !! "CLIENT_URL" = Some s -> s <> "" ->
        origin (cors_options env) = s).
Proof.
  unfold PORT, cors_options, env_truthy. cbn.
  destruct (env !! "PORT") as [p|]; destruct (env !! "CLIENT_URL") as [c|];
    try (destruct (String.eqb p "") eqn:Ep;
         [apply String.eqb_eq in Ep | apply String.eqb_neq in Ep]);
    try (destruct (String.eqb c "") eqn:Ec;
         [apply String.eqb_eq in Ec | apply String.eqb_neq in Ec]); cbn.
  all: repeat split; try intros; try discriminate; try congruence; try reflexivity.
  all: match goal with |- negb (String.eqb ?x "") = true =>
         apply negb_true_iff, String.eqb_neq; assumption end.
Qed.

Lemma configuration_defaults_witness :
  PORT (<["PORT" := ""]> Sample.env_dev) = JNumber 8080
  /\ PORT (<["PORT" := "3000"]> Sample.env_dev) = JString "3000"
  /\ origin (cors_options (<["CLIENT_URL" := ""]> Sample.env_dev))
     = "http://localhost:5173".
Proof.
  destruct (configuration_defaults (<["PORT" := ""]> Sample.env_dev))
    as (_ & _ & _ & H1 & _).
  destruct (configuration_defaults (<["PORT" := "3000"]> Sample.env_dev))
    as (_ & _ & _ & _ & _ & H2 & _).
  destruct (configuration_defaults (<["CLIENT_URL" := ""]> Sample.env_dev))
    as (_ & _ & _ & _ & H3 & _).
  split; [apply H1; vm_compute; reflexivity|].
  split; [apply H2; [vm_compute; reflexivity | discriminate]|].
  apply H3. vm_compute. reflexivity.
Defined.

(** X17.  What the error handler middleware answers.  With the headers
    already sent it answers nothing and hands the error on.  Otherwise,
    when it answers: the HTTP status and the [statusCode] of the body are
    the same number, between 100 and 999; [success] is false; the message
    is not empty; and the line it logs carries that status and message.
    The status of the error is kept when it is one HTTP can carry; an
    error without a status, or with status 0, is answered with 500, and
    one without a message with [Internal Server Error]. *)
Theorem error_handler_answer err method url headersSent :
  let line := fst (errorHandler err method url headersSent) in
  let out := snd (errorHandler err method url headersSent) in
  (headersSent = true -> out = PassedOn err)
  /\ (forall status body, out = Replied status body ->
        headersSent = false
        /\ ej_statusCode body = status /\ 100 <= status <= 999
        /\ ej_success body = false /\ ej_message body <> ""
        /\ line_status line = status /\ line_message line = ej_message body)
  /\ (forall n, err_statusCode err = Some n -> 100 <= n <= 999 ->
        headersSent = false -> exists body, out = Replied n body)
  /\ (err_statusCode err = None \/ err_statusCode err = Some 0 ->
      headersSent = false -> exists body, out = Replied 500 body)
  /\ (err_message err = None \/ err_message err = Some "" ->
      line_message line = "Internal Server Error").
Proof.
  cbv zeta. unfold errorHandler.
  set (status := match err_statusCode err with
                 | Some n => if Z.eqb n 0 then 500 else n
                 | None => 500
                 end).
  set (msg := match err_message err with
              | Some m => if String.eqb m "" then "Internal Server Error" else m
              | None => "Internal Server Error"
              end).
  assert (Hmsg : msg <> "").
  { unfold msg. destruct (err_message err) as [m|]; [|discriminate].
    destruct (String.eqb m "") eqn:E; [discriminate|]. by apply String.eqb_neq. }
  split; [intros ->; reflexivity|].
  split.
  { intros st body. destruct headersSent; [discriminate|].
    destruct ((100 <=? status) && (status <=? 999)) eqn:R; cbn; [|discriminate].
    intros E. injection E as <- <-. cbn.
    apply andb_prop in R as [R1 R2]. apply Z.leb_le in R1, R2.
    repeat split; try assumption; reflexivity. }
  split.
  { intros n En [R1 R2] ->. unfold status. rewrite En.
    destruct (Z.eqb n 0) eqn:Z0; [apply Z.eqb_eq in Z0; lia|].
    apply Z.leb_le in R1, R2. rewrite R1, R2. cbn. eauto. }
  split.
  { intros H ->. assert (status = 500) as ->.
    { unfold status. destruct H as [-> | ->]; reflexivity. }
    cbn. eauto. }
  intros H. unfold msg.
  destruct headersSent; [|destruct ((100 <=? status) && (status <=? 999))]; cbn;
    destruct H as [-> | ->]; reflexivity.
Qed.

Lemma error_handler_answer_witness :
  (exists body, snd (errorHandler Scenario.parse_error "POST" "/api/auth/login" false)
                = Replied 400 body)
  /\ (exists body, snd (errorHandler Scenario.bare_error "POST" "/api/auth/login" false)
                   = Replied 500 body)
  /\ snd (errorHandler Scenario.parse_error "POST" "/api/auth/login" true)
     = PassedOn Scenario.parse_error
  /\ snd (errorHandler Scenario.odd_status "GET" "/" false) = StatusRefused 42.
Proof.
  destruct (error_handler_answer Scenario.parse_error "POST" "/api/auth/login" false)
    as (_ & _ & H1 & _).
  destruct (error_handler_answer Scenario.bare_error "POST" "/api/auth/login" false)
    as (_ & _ & _ & H2 & _).
  destruct (error_handler_answer Scenario.parse_error "POST" "/api/auth/login" true)
    as (H3 & _).
  split; [apply (H1 400 eq_refl); [lia | reflexivity]|].
  split; [apply H2; [left; reflexivity | reflexivity]|].
  split; [apply H3; reflexivity|].
  vm_compute. reflexivity.
Defined.

(* ===================================================================== *)
(** ** The mock sign-up beside the real one *)
(* ===================================================================== *)

(** X18.  The mock sign-up validates nothing and opens no session: for
    every body object, also one that the real controller rejects with 400
    because a field is absent, it answers 201 with [success: true], hands
    nothing to [next], sets no cookie and returns no user; the real
    controller never answers 201 without a cookie and a user.  Without a
    body object it answers nothing and hands the error to [next]. *)
Theorem mock_signup_opens_no_session lib env w b st :
  (statusCode (answer (mock_signup (Some b) fresh_res)) = 201
   /\ cookies (answer (mock_signup (Some b) fresh_res)) = []
   /\ forwarded (mock_signup (Some b) fresh_res) = None
   /\ exists j, sent (answer (mock_signup (Some b) fresh_res)) = Some j
        /\ success j = true /\ user j = None)
  /\ (some_absent b -> statusCode (res (signup lib env w (Some b) st)) = 400)
  /\ (statusCode (res (signup lib env w (Some b) st)) = 201 ->
      cookies (res (signup lib env w (Some b) st)) <> []
      /\ exists j rest, sent (res (signup lib env w (Some b) st)) = Some j
           /\ user j = Some rest)
  /\ (answer (mock_signup None fresh_res) = fresh_res
      /\ forwarded (mock_signup None fresh_res) <> None).
Proof.
  split; [|split; [|split]].
  - cbn. repeat split; try reflexivity. eexists. repeat split; reflexivity.
  - intros Ha. rewrite (signup_missing lib env w b st Ha). reflexivity.
  - on_signup_path lib env w b st; cbn; intros E; try discriminate.
    split; [discriminate|]. eexists. eexists. split; reflexivity.
  - cbn. split; [reflexivity | discriminate].
Qed.

Lemma mock_signup_opens_no_session_witness :
  some_absent Sample.empty_password
  /\ statusCode (res (signup Sample.lib Sample.env_dev Sample.world
                        (Some Sample.empty_password) [])) = 400
  /\ statusCode (answer (mock_signup (Some Sample.empty_password) fresh_res)) = 201
  /\ statusCode (res (signup Sample.lib Sample.env_dev Sample.world (Some Scenario.bob) [])) = 201
  /\ cookies (res (signup Sample.lib Sample.env_dev Sample.world (Some Scenario.bob) [])) <> [].
Proof.
  assert (Ha : some_absent Sample.empty_password)
    by (right; right; vm_compute; reflexivity).
  assert (H201 : statusCode (res (signup Sample.lib Sample.env_dev Sample.world
                                    (Some Scenario.bob) [])) = 201)
    by (vm_compute; reflexivity).
  destruct (mock_signup_opens_no_session Sample.lib Sample.env_dev Sample.world
              Sample.empty_password []) as ((H1 & _) & H2 & _).
  destruct (mock_signup_opens_no_session Sample.lib Sample.env_dev Sample.world
              Scenario.bob []) as (_ & _ & H3 & _).
  split; [exact Ha|]. split; [exact (H2 Ha)|]. split; [exact H1|].
  split; [exact H201|]. exact (proj1 (H3 H201)).
Defined.

(* ===================================================================== *)
(** ** The user object a client receives *)
(* ===================================================================== *)

Lemma rest_keys (u : User) :
  dom (delete "password" (_doc u))
  = ({["_id"; "username"; "email"; "createdAt"; "updatedAt"; "__v"]} : gset string).
Proof.
  unfold _doc. rewrite dom_delete_L, !dom_insert_L, dom_empty_L.
  apply set_eq. intros k.
  rewrite elem_of_difference, !elem_of_union, !elem_of_singleton, elem_of_empty.
  split.
  - intros [H N]. intuition (subst; try tauto; try congruence).
  - intros H. split; [tauto|]. intros ->. intuition discriminate.
Qed.

Lemma rest_values (u : User) :
  let rest := delete "password" (_doc u) in
  rest !! "_id" = Some (VObjectId (_id u))
  /\ rest !! "username" = Some (VString (username u))
  /\ rest !! "email" = Some (VString (email u))
  /\ rest !! "createdAt" = Some (VDate (createdAt u))
  /\ rest !! "updatedAt" = Some (VDate (updatedAt u))
  /\ rest !! "__v" = Some (VNumber (__v u))
  /\ <["password" := VString (password u)]> rest = _doc u.
Proof.
  cbv zeta. unfold _doc.
  repeat split; try (by simplify_map_eq).
  all: rewrite insert_delete_eq; apply insert_id; by simplify_map_eq.
Qed.

(** X19.  The user a client receives is the stored document minus its
    digest.  On a login answered with 200 and on a registration answered
    with 201 the returned object has exactly the keys [_id], [username],
    [email], [createdAt], [updatedAt] and [__v], each with the value of a
    document of the collection as the request leaves it, and putting the
    digest of that document back under [password] gives its [_doc]. *)
Theorem returned_user_is_the_document lib env w req st :
  let shown (r : HandlerState) :=
    exists u rest j,
      In u (db r) /\ sent (res r) = Some j /\ user j = Some rest
      /\ dom rest = ({["_id"; "username"; "email"; "createdAt"; "updatedAt"; "__v"]}
                      : gset string)
      /\ rest !! "_id" = Some (VObjectId (_id u))
      /\ rest !! "username" = Some (VString (username u))
      /\ rest !! "email" = Some (VString (email u))
      /\ rest !! "createdAt" = Some (VDate (createdAt u))
      /\ rest !! "updatedAt" = Some (VDate (updatedAt u))
      /\ rest !! "__v" = Some (VNumber (__v u))
      /\ <["password" := VString (password u)]> rest = _doc u in
  (statusCode (res (login lib env w req st)) = 200 -> shown (login lib env w req st))
  /\ (statusCode (res (signup lib env w req st)) = 201 ->
      shown (signup lib env w req st)).
Proof.
  cbv zeta. split.
  - on_login_request lib env w req st; cbn; intros E; try discriminate.
    exists u, (delete "password" (_doc u)). eexists.
    split; [eapply query_resolved_in; eassumption|].
    split; [reflexivity|]. split; [reflexivity|].
    split; [apply rest_keys | apply rest_values].
  - on_signup_request lib env w req st; cbn; intros E; try discriminate.
    exists u, (delete "password" (_doc u)). eexists.
    split; [apply in_or_app; right; by left|].
    split; [reflexivity|]. split; [reflexivity|].
    split; [apply rest_keys | apply rest_values].
Qed.

Lemma returned_user_is_the_document_witness :
  statusCode (res (login Sample.lib Sample.env_dev Sample.world (Some Sample.ann)
                     [Sample.ann_record])) = 200
  /\ exists (u : User) (rest : gmap string DocValue),
       In u [Sample.ann_record]
       /\ rest !! "username" = Some (VString (username u))
       /\ dom rest = ({["_id"; "username"; "email"; "createdAt"; "updatedAt"; "__v"]}
                       : gset string).
Proof.
  assert (H200 : statusCode (res (login Sample.lib Sample.env_dev Sample.world (Some Sample.ann)
                                    [Sample.ann_record])) = 200)
    by (vm_compute; reflexivity).
  split; [exact H200|].
  destruct (returned_user_is_the_document Sample.lib Sample.env_dev Sample.world
              (Some Sample.ann) [Sample.ann_record]) as (H & _).
  destruct (H H200) as (u & rest & j & Hu & _ & _ & Hd & _ & Hn & _).
  exists u, rest. split; [|split; assumption].
  assert (E : db (login Sample.lib Sample.env_dev Sample.world (Some Sample.ann)
                    [Sample.ann_record]) = [Sample.ann_record])
    by (vm_compute; reflexivity).
  rewrite E in Hu. exact Hu.
Defined.

(* ===================================================================== *)
(** ** The calls a request makes *)
(* ===================================================================== *)

(** X20.  A request calls each library at most once and in a fixed order.
    A registration makes a beginning of the sequence lookup, hash, save,
    sign, followed by at most its error line; a login makes a beginning of
    the sequence lookup, compare, sign, followed by at most its error
    line.  So a login never hashes and never saves, and nothing is saved
    before the lookup and the hash have been made.  A request without a
    parsed body makes no call and writes its error line. *)
Theorem calls_in_order lib env w body st :
  (exists n tail,
     trace (signup lib env w (Some body) st)
     = take n [CallFindOne (field body "email");
               CallHashSync (field body "password") 10;
               CallSave (new_id w); CallJwtSign (new_id w)] ++ tail
     /\ (tail = [] \/ tail = [CallConsoleError "Signup Error:"]))
  /\ (exists digest id n tail,
        trace (login lib env w (Some body) st)
        = take n [CallFindOne (field body "email");
                  CallCompareSync (field body "password") digest;
                  CallJwtSign id] ++ tail
        /\ (tail = [] \/ tail = [CallConsoleError "Login Error:"]))
  /\ trace (signup lib env w None st) = [CallConsoleError "Signup Error:"]
  /\ trace (login lib env w None st) = [CallConsoleError "Login Error:"].
Proof.
  split; [|split; [|split; reflexivity]].
  - on_signup_path lib env w body st; cbn.
    + exists 0%nat, []. auto.
    + exists 1%nat. eexists. split; [reflexivity | auto].
    + exists 1%nat, []. auto.
    + exists 2%nat. eexists. split; [reflexivity | auto].
    + exists 3%nat. eexists. split; [reflexivity | auto].
    + exists 3%nat. eexists. split; [reflexivity | auto].
    + exists 4%nat, [].
      match goal with
      | I : insertOne _ _ _ = _ |- _ =>
          destruct (insertOne_normal _ _ _ _ _ I) as [_ Hid]
      end.
      cbn in Hid. rewrite Hid. auto.
  - on_login_path lib env w body st; cbn.
    + exists "", "", 0%nat, []. auto.
    + exists "", "", 1%nat. eexists. split; [reflexivity | auto].
    + exists "", "", 1%nat, []. auto.
    + exists (password u), "", 2%nat. eexists. split; [reflexivity | auto].
    + exists (password u), "", 2%nat, []. auto.
    + exists (password u), "", 2%nat. eexists. split; [reflexivity | auto].
    + exists (password u), (_id u), 3%nat, []. auto.
Qed.

Lemma query_same_answer lib w1 w2 st filter o1 o2 :
  query lib w1 st filter = Resolved o1 ->
  query lib w2 st filter = Resolved o2 -> o1 = o2.
Proof.
  unfold query.
  destruct (findOne_rejects w1); [discriminate|].
  destruct (findOne_rejects w2); [discriminate|].
  destruct (castFilter lib filter); congruence.
Qed.

(** X21.  The token of a login depends on the moment only through its
    second: two logins with the same body against the same collection and
    environment, both answered with 200, set the same cookie exactly when
    their clocks read the same second. *)
Theorem token_is_fixed_within_a_second lib env w1 w2 req st :
  statusCode (res (login lib env w1 req st)) = 200 ->
  statusCode (res (login lib env w2 req st)) = 200 ->
  (cookies (res (login lib env w1 req st)) = cookies (res (login lib env w2 req st))
   <-> clock_sign w1 / 1000 = clock_sign w2 / 1000).
Proof.
  destruct req as [body|]; [|intros E; discriminate E].
  on_login_path lib env w1 body st; cbn; intros E1; try discriminate.
  on_login_path lib env w2 body st; cbn; intros E2; try discriminate.
  repeat match goal with
         | Q1 : query _ w1 _ _ = Resolved (Some ?a),
           Q2 : query _ w2 _ _ = Resolved (Some ?b) |- _ =>
             assert (b = a) as ->
               by (pose proof (query_same_answer _ _ _ _ _ _ _ Q1 Q2); congruence);
             clear Q2
         | K1 : env !! "JWT_SECRET" = Some ?k, K2 : env !! "JWT_SECRET" = Some ?k' |- _ =>
             assert (k' = k) as -> by congruence; clear K2
         end.
  unfold access_cookie, token_for. split.
  - intros E. injection E. auto.
  - intros ->. reflexivity.
Qed.

Lemma token_is_fixed_within_a_second_witness :
  clock_sign Sample.world / 1000 <> clock_sign Scenario.later / 1000
  /\ cookies (res (login Sample.lib Sample.env_dev Sample.world (Some Sample.ann)
                     [Sample.ann_record]))
     <> cookies (res (login Sample.lib Sample.env_dev Scenario.later (Some Sample.ann)
                        [Sample.ann_record])).
Proof.
  assert (Hc : clock_sign Sample.world / 1000 <> clock_sign Scenario.later / 1000)
    by (vm_compute; discriminate).
  split; [exact Hc|].
  intros E. apply Hc.
  exact (proj1 (token_is_fixed_within_a_second Sample.lib Sample.env_dev Sample.world
                  Scenario.later (Some Sample.ann) [Sample.ann_record]
                  ltac:(vm_compute; reflexivity) ltac:(vm_compute; reflexivity)) E).
Defined.
